(** * A shallow embedding of the spreadsheet gateway (src/index.js)

    The server is an express application: every route handler reads the
    session attached to the request, possibly awaits a few calls to the
    Google client libraries and answers with a status and a payload.

    - JavaScript strings are [string]; [undefined] fields are [option].
    - A handler is a program of the free monad [prog] over the remote
      calls of the client libraries; [run] interprets a program against
      an arbitrary remote service and records the calls and their
      outcomes in order.
    - The session is threaded explicitly: a handler returns the response
      together with the session it leaves behind. *)

From Stdlib Require Import ZArith List String Ascii Bool Lia.
From Stdlib Require Import DecimalString.
Import ListNotations.
Local Open Scope string_scope.
Local Open Scope list_scope.

Set Implicit Arguments.
Local Set Warnings "-register-all".

(** ** JavaScript values *)

Inductive json : Type :=
| JNull
| JBool (b : bool)
| JNum (n : Z)
| JStr (s : string)
| JArr (items : list json)
| JObj (fields : list (string * json)).

(** An object literal whose fields may be [undefined]: [JSON.stringify]
    leaves such fields out. *)
Fixpoint defined_fields (fs : list (string * option json)) : list (string * json) :=
  match fs with
  | [] => []
  | (k, Some v) :: r => (k, v) :: defined_fields r
  | (_, None) :: r => defined_fields r
  end.

Definition jobj (fs : list (string * option json)) : json := JObj (defined_fields fs).

Definition jstr (s : option string) : option json := option_map JStr s.

(** Property lookup on a parsed JSON object, which holds each property
    once. *)
Fixpoint assoc (k : string) (fs : list (string * json)) : option json :=
  match fs with
  | [] => None
  | (k', v) :: r => if String.eqb k k' then Some v else assoc k r
  end.

(** Every property name occurring anywhere in a JSON value. *)
Fixpoint json_keys (j : json) : list string :=
  match j with
  | JArr l => flat_map json_keys l
  | JObj fs =>
      (fix go (fs : list (string * json)) : list string :=
         match fs with
         | [] => []
         | (k, v) :: r => k :: json_keys v ++ go r
         end) fs
  | _ => []
  end.

(** Truthiness of a possibly undefined string: [undefined] and the empty
    string are falsy. *)
Definition truthy (s : option string) : bool :=
  match s with
  | Some (String _ _) => true
  | _ => false
  end.

(** [a || b] on possibly undefined strings. *)
Definition js_or (a b : option string) : option string :=
  if truthy a then a else b.

(** [a || 'literal']. *)
Definition js_or_lit (a : option string) (d : string) : string :=
  match a with
  | Some (String c r) => String c r
  | _ => d
  end.

(** [o?.f] *)
Definition chain {A B} (o : option A) (f : A -> option B) : option B :=
  match o with
  | Some a => f a
  | None => None
  end.

(** [xs || []] *)
Definition or_nil {A} (xs : option (list A)) : list A :=
  match xs with
  | Some l => l
  | None => []
  end.

(** [xs.filter(Boolean)] on an array of possibly undefined objects. *)
Fixpoint filter_defined {A} (xs : list (option A)) : list A :=
  match xs with
  | [] => []
  | Some a :: r => a :: filter_defined r
  | None :: r => filter_defined r
  end.

(** [xs.filter(Boolean)] on an array of possibly undefined strings. *)
Fixpoint filter_truthy (xs : list (option string)) : list string :=
  match xs with
  | [] => []
  | Some (String c s) :: r => String c s :: filter_truthy r
  | _ :: r => filter_truthy r
  end.

(** [String(v)] *)
Definition to_String (v : option string) : string :=
  match v with
  | Some s => s
  | None => "undefined"
  end.

(** [s.replace(/c/g, rep)] for a one-character literal pattern: the
    matches are found left to right and each is replaced by [rep]. *)
Fixpoint replace_all (c : ascii) (rep : string) (s : string) : string :=
  match s with
  | EmptyString => EmptyString
  | String a r =>
      if Ascii.eqb a c then rep ++ replace_all c rep r
      else String a (replace_all c rep r)
  end.

Definition quote : ascii := "'"%char.

(** ** Configuration, session and OAuth client *)

(** The variables of [process.env] the handlers read. *)
Record environment := {
  GOOGLE_CLIENT_ID : option string;
  GOOGLE_CLIENT_SECRET : option string;
  GOOGLE_REDIRECT_URI : option string;
  POST_LOGIN_REDIRECT : option string
}.

(** The token bundle of the provider. *)
Record token_bundle := {
  access_token : option string;
  refresh_token : option string
}.

(** [req.session.clientConfig] *)
Record client_config := {
  cfg_clientId : option string;
  cfg_clientSecret : option string;
  cfg_redirectUri : option string
}.

Record session := {
  tokens : option token_bundle;
  clientConfig : option client_config
}.

(** The session a browser gets on its first request, and after
    [req.session.destroy]. *)
Definition fresh_session : session := {| tokens := None; clientConfig := None |}.

(** The options handed to [new google.auth.OAuth2]. *)
Record oauth_client := {
  clientId : option string;
  clientSecret : option string;
  redirectUri : option string
}.

(** The client after [client.setCredentials(tokens)]. *)
Record authed_client := {
  client : oauth_client;
  credentials : option token_bundle
}.

(** ** Remote data *)

Record userinfo := {
  ui_id : option string;
  ui_name : option string;
  ui_email : option string;
  ui_picture : option string
}.

Record owner := { displayName : option string }.

Record file := {
  f_id : string;
  f_name : option string;
  f_owners : option (list owner);
  f_modifiedTime : option string
}.

Record drive_params := {
  q : string;
  pageSize : Z;
  fields : string;
  orderBy : string;
  pageToken : option string
}.

Record file_list := {
  files : option (list file);
  nextPageToken : option string
}.

Definition grid := list (list json).

Record value_range := { values : option grid }.

Record sheet_properties := {
  sheetId : option Z;
  title : option string
}.

Record sheet := { properties : option sheet_properties }.

Record spreadsheet := { sheets : option (list sheet) }.

Record batch := { valueRanges : option (list value_range) }.

(** ** Remote calls and programs *)

(** A promise settles: it resolves with a value or rejects. *)
Inductive outcome (A : Type) : Type :=
| Resolved (a : A)
| Rejected.
Arguments Rejected {A}.

Inductive call : Type :=
| GetToken (c : oauth_client) (code : string)
| UserinfoGet (auth : authed_client)
| FilesList (auth : authed_client) (params : drive_params)
| ValuesGet (auth : authed_client) (spreadsheetId range : string)
| SpreadsheetsGet (auth : authed_client) (spreadsheetId fields : string)
| ValuesBatchGet (auth : authed_client) (spreadsheetId : string) (ranges : list string).

Definition reply (c : call) : Type :=
  match c with
  | GetToken _ _ => outcome token_bundle
  | UserinfoGet _ => outcome userinfo
  | FilesList _ _ => outcome file_list
  | ValuesGet _ _ _ => outcome value_range
  | SpreadsheetsGet _ _ _ => outcome spreadsheet
  | ValuesBatchGet _ _ _ => outcome batch
  end.

Inductive prog (A : Type) : Type :=
| Ret (a : A)
| Await (c : call) (k : reply c -> prog A).
Arguments Ret {A} a.

Fixpoint bind {A B} (p : prog A) (f : A -> prog B) : prog B :=
  match p with
  | Ret a => f a
  | Await c k => Await c (fun r => bind (k r) f)
  end.

Declare Scope prog_scope.
Delimit Scope prog_scope with prog.
Notation "x <- p ;; k" := (bind p (fun x => k))
  (at level 61, p at next level, right associativity) : prog_scope.
Local Open Scope prog_scope.

(** [await c] inside a [try] block. *)
Definition await (c : call) : prog (reply c) := Await c (fun r => Ret r).

(** One entry of the log: a call and how it settled. *)
Definition event : Type := { c : call & reply c }.
Definition Ev (c : call) (r : reply c) : event := existT reply c r.
Definition call_of (e : event) : call := projT1 e.

Definition is_files_list (c : call) : bool :=
  match c with FilesList _ _ => true | _ => false end.
Definition is_values_get (c : call) : bool :=
  match c with ValuesGet _ _ _ => true | _ => false end.
Definition is_batch_get (c : call) : bool :=
  match c with ValuesBatchGet _ _ _ => true | _ => false end.

Section Run.
(** The remote service: any state, any deterministic answer. *)
Context {W : Type} (remote : forall c : call, W -> reply c * W).

Fixpoint run {A} (p : prog A) (w : W) : A * W * list event :=
  match p with
  | Ret a => (a, w, [])
  | Await c k =>
      let (r, w1) := remote c w in
      let '(a, w2, tr) := run (k r) w1 in
      (a, w2, Ev c r :: tr)
  end.

Definition result {A} (p : prog A) (w : W) : A := fst (fst (run p w)).
Definition trace {A} (p : prog A) (w : W) : list event := snd (run p w).
End Run.

(** ** Responses *)

Definition OAUTH_SCOPES : list string :=
  [ "https://www.googleapis.com/auth/drive.metadata.readonly";
    "https://www.googleapis.com/auth/spreadsheets.readonly";
    "openid";
    "email";
    "profile" ].

(** Where a redirect goes: the URL [client.generateAuthUrl] builds from
    its options, or a literal URL. *)
Inductive location : Type :=
| AuthUrl (c : oauth_client) (access_type prompt : string) (scope : list string)
| Url (u : string).

Inductive payload : Type :=
| Json (body : json)
| Text (body : string)
| Redirect (to : location).

Record response := {
  status : Z;
  content : payload;
  clearCookie : option string
}.

(** [res.status(st).json(body)] *)
Definition res_json (st : Z) (body : json) : response :=
  {| status := st; content := Json body; clearCookie := None |}.

(** [res.status(st).send(text)] *)
Definition res_send (st : Z) (text : string) : response :=
  {| status := st; content := Text text; clearCookie := None |}.

(** [res.redirect(to)] *)
Definition res_redirect (to : location) : response :=
  {| status := 302; content := Redirect to; clearCookie := None |}.

Definition error_body (msg : string) : json := JObj [("error", JStr msg)].

(** ** Validation (Joi) *)

Inductive joi_error : Type :=
| ObjectBase
| ObjectUnknown (key : string)
| AnyRequired (label : string)
| StringBase (label : string)
| StringEmpty (label : string)
| StringMin (label : string) (limit : Z)
| StringUri (label : string)
| NumberBase (label : string)
| NumberInteger (label : string)
| NumberMin (label : string) (limit : Z)
| NumberMax (label : string) (limit : Z)
| NumberUnsafe (label : string).

Definition dquote : string := String "034"%char EmptyString.

Definition quoted (label : string) : string := dquote ++ label ++ dquote.

Definition decimal (n : Z) : string := NilZero.string_of_int (Z.to_int n).

(** [error.message] *)
Definition message (e : joi_error) : string :=
  match e with
  | ObjectBase => quoted "value" ++ " must be of type object"
  | ObjectUnknown k => quoted k ++ " is not allowed"
  | AnyRequired l => quoted l ++ " is required"
  | StringBase l => quoted l ++ " must be a string"
  | StringEmpty l => quoted l ++ " is not allowed to be empty"
  | StringMin l n =>
      quoted l ++ " length must be at least " ++ decimal n ++ " characters long"
  | StringUri l => quoted l ++ " must be a valid uri"
  | NumberBase l => quoted l ++ " must be a number"
  | NumberInteger l => quoted l ++ " must be an integer"
  | NumberMin l n => quoted l ++ " must be greater than or equal to " ++ decimal n
  | NumberMax l n => quoted l ++ " must be less than or equal to " ++ decimal n
  | NumberUnsafe l => quoted l ++ " must be a safe number"
  end.

Definition strlen (s : string) : Z := Z.of_nat (String.length s).

(** [Joi.string().min(limit).required()] *)
Definition string_min_required (label : string) (limit : Z) (v : option json)
  : joi_error + string :=
  match v with
  | None => inl (AnyRequired label)
  | Some (JStr EmptyString) => inl (StringEmpty label)
  | Some (JStr s) =>
      if (strlen s <? limit)%Z then inl (StringMin label limit) else inr s
  | Some _ => inl (StringBase label)
  end.

(** A numeric query parameter as Joi's conversion of the query string
    yields it: not a numeral, a numeral that does not survive the
    conversion to a number, a number with a fractional part, or an
    integer. *)
Inductive number_param : Type :=
| NotNumber
| Unsafe
| NonInteger
| Integer (n : Z).

(** [Number.MAX_SAFE_INTEGER]; Joi refuses the numbers beyond it, in
    either direction, before it applies the rules of the schema. *)
Definition MAX_SAFE_INTEGER : Z := 9007199254740991.

(** [Joi.number().integer().min(lo).default(d)], with [.max(hi)] when
    the schema has it. *)
Definition integer_range (label : string) (lo : Z) (hi : option Z) (d : Z)
    (v : option number_param) : joi_error + Z :=
  match v with
  | None => inr d
  | Some NotNumber => inl (NumberBase label)
  | Some Unsafe => inl (NumberUnsafe label)
  | Some NonInteger => inl (NumberInteger label)
  | Some (Integer n) =>
      if (n <? - MAX_SAFE_INTEGER)%Z || (MAX_SAFE_INTEGER <? n)%Z
      then inl (NumberUnsafe label)
      else if (n <? lo)%Z then inl (NumberMin label lo)
      else match hi with
           | Some h => if (h <? n)%Z then inl (NumberMax label h) else inr n
           | None => inr n
           end
  end.

(** [Joi.string().allow('').default('')] *)
Definition string_or_empty (label : string) (v : option json) : joi_error + string :=
  match v with
  | None => inr ""
  | Some (JStr s) => inr s
  | Some _ => inl (StringBase label)
  end.

(** The parsed query string of [GET /api/sheets]. *)
Record sheets_query := {
  page_param : option number_param;
  pageSize_param : option number_param;
  query_param : option json;
  other_keys : list string
}.

Record sheets_value := {
  page : Z;
  v_pageSize : Z;
  query : string
}.

(** The schema of [GET /api/sheets]; keys outside the schema are not
    allowed. *)
Definition validate_sheets_query (rq : sheets_query) : joi_error + sheets_value :=
  match integer_range "page" 1 None 1 (page_param rq) with
  | inl e => inl e
  | inr p =>
      match integer_range "pageSize" 1 (Some 50%Z) 12 (pageSize_param rq) with
      | inl e => inl e
      | inr ps =>
          match string_or_empty "query" (query_param rq) with
          | inl e => inl e
          | inr qs =>
              match other_keys rq with
              | k :: _ => inl (ObjectUnknown k)
              | [] => inr {| page := p; v_pageSize := ps; query := qs |}
              end
          end
      end
  end.

Record client_config_value := {
  v_clientId : string;
  v_clientSecret : string;
  v_redirectUri : string
}.

(** Truthiness of a JSON value. *)
Definition json_truthy (j : json) : bool :=
  match j with
  | JNull | JBool false | JNum 0%Z | JStr EmptyString => false
  | _ => true
  end.

(** [req.body || {}] *)
Definition body_or_empty (body : option json) : json :=
  match body with
  | Some j => if json_truthy j then j else JObj []
  | None => JObj []
  end.

(** ** The handlers *)

Inductive request : Type :=
| GetAuthLogin
| GetAuthCallback (code : option string)
| GetClientConfig
| PostClientConfig (body : option json)
| GetRoot
| GetAuthLogout
| GetApiMe
| GetApiSheets (rq : sheets_query)
| PostSheetsRefresh (id : string)
| GetSheetsTabs (id : string).

(** The routes registered behind [ensureAuthed]. *)
Definition authenticated_route (r : request) : bool :=
  match r with
  | GetApiMe | GetApiSheets _ | PostSheetsRefresh _ | GetSheetsTabs _ => true
  | _ => false
  end.

(** One element of [GET /api/sheets]'s [items]. *)
Record file_summary := {
  fs_id : string;
  fs_name : option string;
  fs_owners : list string;
  fs_modifiedTime : option string;
  fs_preview : grid
}.

(** One element of [GET /api/sheets/:id/tabs]'s [items]. *)
Record tab_summary := {
  tab_title : option string;
  tab_gid : option Z;
  tab_preview : grid
}.

Definition grid_json (g : grid) : json := JArr (map JArr g).

Definition file_summary_json (it : file_summary) : json :=
  jobj [ ("id", Some (JStr (fs_id it)));
         ("name", jstr (fs_name it));
         ("owners", Some (JArr (map JStr (fs_owners it))));
         ("modifiedTime", jstr (fs_modifiedTime it));
         ("preview", Some (grid_json (fs_preview it))) ].

Definition tab_summary_json (it : tab_summary) : json :=
  jobj [ ("title", jstr (tab_title it));
         ("gid", option_map JNum (tab_gid it));
         ("preview", Some (grid_json (tab_preview it))) ].

(** [xs.map((x, idx) => f(x, idx))] *)
Fixpoint mapi_from {A B} (idx : nat) (f : A -> nat -> B) (xs : list A) : list B :=
  match xs with
  | [] => []
  | x :: r => f x idx :: mapi_from (S idx) f r
  end.
Definition mapi {A B} (f : A -> nat -> B) (xs : list A) : list B := mapi_from 0 f xs.

(** The preview a settled [values.get] leaves in [preview]: the [catch]
    block resets it to the empty array. *)
Definition preview_of (v : outcome value_range) : grid :=
  match v with
  | Resolved d => or_nil (values d)
  | Rejected => []
  end.

Definition summarize (f : file) (v : outcome value_range) : file_summary :=
  {| fs_id := f_id f;
     fs_name := f_name f;
     fs_owners := filter_truthy (map displayName (or_nil (f_owners f)));
     fs_modifiedTime := f_modifiedTime f;
     fs_preview := preview_of v |}.

(** The range of one tab handed to [values.batchGet]. *)
Definition tab_range (p : sheet_properties) : string :=
  "'" ++ replace_all quote "''" (to_String (title p)) ++ "'!A1:E3".

Definition sheets_body (items : list file_summary) : json :=
  JObj [ ("items", JArr (map file_summary_json items));
         ("total", JNum (Z.of_nat (List.length items))) ].

Definition tabs_body (items : list tab_summary) : json :=
  JObj [ ("items", JArr (map tab_summary_json items)) ].

Definition unauthorized : response := res_json 401 (error_body "Unauthorized").

Section Server.
(** [Joi.string().uri()]: whether a non-empty string is a URI. *)
Variable is_uri : string -> bool.

(** [process.env] *)
Variable env : environment.

Definition default_redirect : string :=
  js_or_lit (GOOGLE_REDIRECT_URI env) "http://localhost:4000/auth/callback".

Definition post_login_redirect : string :=
  js_or_lit (POST_LOGIN_REDIRECT env) "http://localhost:5173/".

Definition getOAuthClient (s : session) : oauth_client :=
  let cfg := clientConfig s in
  {| clientId := js_or (chain cfg cfg_clientId) (GOOGLE_CLIENT_ID env);
     clientSecret := js_or (chain cfg cfg_clientSecret) (GOOGLE_CLIENT_SECRET env);
     redirectUri := js_or (chain cfg cfg_redirectUri) (GOOGLE_REDIRECT_URI env) |}.

(** The guard either runs the handler or answers itself. *)
Definition ensureAuthed (s : session) (next : prog (response * session))
  : prog (response * session) :=
  match tokens s with
  | Some _ => next
  | None => Ret (unauthorized, s)
  end.

(** The three API objects share one client; the calls carry it. *)
Definition getAuthedClients (t : option token_bundle) (s : session) : authed_client :=
  {| client := getOAuthClient s; credentials := t |}.

(** [Joi.string().uri().optional().allow('').default(...)] *)
Definition optional_uri (label : string) (v : option json) : joi_error + string :=
  match v with
  | None => inr default_redirect
  | Some (JStr EmptyString) => inr ""
  | Some (JStr s) => if is_uri s then inr s else inl (StringUri label)
  | Some _ => inl (StringBase label)
  end.

(** The schema of [POST /auth/client-config], keys checked in the order
    they are declared. *)
Definition validate_client_config (body : json) : joi_error + client_config_value :=
  match body with
  | JObj fs =>
      match string_min_required "clientId" 10 (assoc "clientId" fs) with
      | inl e => inl e
      | inr cid =>
          match string_min_required "clientSecret" 10 (assoc "clientSecret" fs) with
          | inl e => inl e
          | inr sec =>
              match optional_uri "redirectUri" (assoc "redirectUri" fs) with
              | inl e => inl e
              | inr uri =>
                  inr {| v_clientId := cid; v_clientSecret := sec; v_redirectUri := uri |}
              end
          end
      end
  | _ => inl ObjectBase
  end.

Definition get_auth_login (s : session) : response * session :=
  let c := getOAuthClient s in
  (res_redirect (AuthUrl c "offline" "consent" OAUTH_SCOPES), s).

Definition get_auth_callback (code : option string) (s : session)
  : prog (response * session) :=
  if negb (truthy code) then Ret (res_send 400 "Missing code", s)
  else
    let c := getOAuthClient s in
    r <- await (GetToken c (to_String code)) ;;
    match r with
    | Resolved t =>
        Ret (res_redirect (Url post_login_redirect),
             {| tokens := Some t; clientConfig := clientConfig s |})
    | Rejected => Ret (res_send 500 "OAuth callback failed", s)
    end.

Definition get_client_config (s : session) : response * session :=
  let cfg := clientConfig s in
  let present := truthy (chain cfg cfg_clientId) && truthy (chain cfg cfg_clientSecret) in
  (res_json 200
     (JObj [ ("configured", JBool present);
             ("config",
              if present
              then jobj [("redirectUri", jstr (chain cfg cfg_redirectUri))]
              else JNull) ]),
   s).

Definition post_client_config (body : option json) (s : session) : response * session :=
  match validate_client_config (body_or_empty body) with
  | inl error => (res_json 400 (error_body (message error)), s)
  | inr value =>
      let uri :=
        if truthy (Some (v_redirectUri value)) && (0 <? strlen (v_redirectUri value))%Z
        then v_redirectUri value
        else default_redirect in
      (res_json 200 (JObj [("ok", JBool true); ("redirectUri", JStr uri)]),
       {| tokens := tokens s;
          clientConfig :=
            Some {| cfg_clientId := Some (v_clientId value);
                    cfg_clientSecret := Some (v_clientSecret value);
                    cfg_redirectUri := Some uri |} |})
  end.

Definition get_root (s : session) : response * session :=
  let ui := post_login_redirect in
  (res_send 200
     ("OK. Open the UI at <a href=" ++ dquote ++ ui ++ dquote ++ ">" ++ ui ++ "</a>."),
   s).

Definition get_auth_logout (s : session) : response * session :=
  ({| status := 302; content := Redirect (Url "/"); clearCookie := Some "gsd.sid" |},
   fresh_session).

Definition get_api_me (s : session) : prog (response * session) :=
  ensureAuthed s
    (let auth := getAuthedClients (tokens s) s in
     r <- await (UserinfoGet auth) ;;
     match r with
     | Resolved me =>
         Ret (res_json 200
                (jobj [ ("id", jstr (ui_id me));
                        ("name", jstr (ui_name me));
                        ("email", jstr (ui_email me));
                        ("photo", jstr (ui_picture me)) ]),
              s)
     | Rejected => Ret (res_json 500 (error_body "Failed to fetch user info"), s)
     end).

Definition driveParams (ps : Z) (qs : string) (tok : option string) : drive_params :=
  {| q := "mimeType='application/vnd.google-apps.spreadsheet' and trashed=false"
          ++ (if truthy (Some qs)
              then " and name contains '" ++ replace_all quote "\'" qs ++ "'"
              else "");
     pageSize := ps;
     fields := "files(id,name,owners,modifiedTime),nextPageToken";
     orderBy := "modifiedTime desc";
     pageToken := tok |}.

Section Sheets.
Variable auth : authed_client.
Variables (ps : Z) (qs : string).

(** The loop [for (let i = 1; i < page; i++)]: [n] is the number of
    iterations still to run, [page - i]; the body keeps nothing of
    the listing but its [nextPageToken], and breaks on a falsy one. *)
Fixpoint skip_pages (n : nat) (tok : option string) : prog (outcome (option string)) :=
  match n with
  | O => Ret (Resolved tok)
  | S m =>
      r <- await (FilesList auth (driveParams ps qs tok)) ;;
      match r with
      | Rejected => Ret Rejected
      | Resolved d =>
          let tok := nextPageToken d in
          if negb (truthy tok) then Ret (Resolved tok) else skip_pages m tok
      end
  end.

(** [Promise.all(files.map(async (f) => ...))]: the calls are issued
    in the order of [files] and the results collected by position;
    a rejected [values.get] is caught inside the callback. *)
Fixpoint previews (fs : list file) : prog (list file_summary) :=
  match fs with
  | [] => Ret []
  | f :: r =>
      v <- await (ValuesGet auth (f_id f) "A1:E3") ;;
      its <- previews r ;;
      Ret (summarize f v :: its)
  end.

(** The body of the [try] block of [GET /api/sheets]. *)
Definition list_sheets (pg : Z) : prog (outcome (list file_summary)) :=
  t <- skip_pages (Z.to_nat (pg - 1)) None ;;
  match t with
  | Rejected => Ret Rejected
  | Resolved tok =>
      resp <- await (FilesList auth (driveParams ps qs tok)) ;;
      match resp with
      | Rejected => Ret Rejected
      | Resolved d =>
          items <- previews (or_nil (files d)) ;;
          Ret (Resolved items)
      end
  end.
End Sheets.

Definition get_api_sheets (rq : sheets_query) (s : session) : prog (response * session) :=
  ensureAuthed s
    match validate_sheets_query rq with
    | inl error => Ret (res_json 400 (error_body (message error)), s)
    | inr value =>
        let auth := getAuthedClients (tokens s) s in
        r <- list_sheets auth (v_pageSize value) (query value) (page value) ;;
        match r with
        | Resolved items => Ret (res_json 200 (sheets_body items), s)
        | Rejected => Ret (res_json 500 (error_body "Failed to list sheets"), s)
        end
    end.

Definition post_sheets_refresh (id : string) (s : session) : prog (response * session) :=
  ensureAuthed s (Ret (res_json 200 (JObj [("ok", JBool true)]), s)).

(** [(meta.data.sheets || []).map((s) => s.properties).filter(Boolean)] *)
Definition sheetProps_of (meta : spreadsheet) : list sheet_properties :=
  filter_defined (map properties (or_nil (sheets meta))).

Definition tab_items (sheetProps : list sheet_properties) (valuesByIndex : list value_range)
  : list tab_summary :=
  mapi (fun p idx =>
          {| tab_title := title p;
             tab_gid := sheetId p;
             tab_preview := or_nil (chain (nth_error valuesByIndex idx) values) |})
       sheetProps.

Definition get_sheets_tabs (spreadsheetId : string) (s : session)
  : prog (response * session) :=
  ensureAuthed s
    (let auth := getAuthedClients (tokens s) s in
     m <- await (SpreadsheetsGet auth spreadsheetId
                   "sheets(properties(sheetId,title,index))") ;;
     match m with
     | Rejected => Ret (res_json 500 (error_body "Failed to fetch inner sheets"), s)
     | Resolved meta =>
         let sheetProps := sheetProps_of meta in
         if Nat.eqb (List.length sheetProps) 0 then Ret (res_json 200 (tabs_body []), s)
         else
           let ranges := map tab_range sheetProps in
           b <- await (ValuesBatchGet auth spreadsheetId ranges) ;;
           let valuesByIndex :=
             match b with
             | Resolved d => or_nil (valueRanges d)
             | Rejected => []
             end in
           Ret (res_json 200 (tabs_body (tab_items sheetProps valuesByIndex)), s)
     end).

(** The router. *)
Definition handle (r : request) (s : session) : prog (response * session) :=
  match r with
  | GetAuthLogin => Ret (get_auth_login s)
  | GetAuthCallback code => get_auth_callback code s
  | GetClientConfig => Ret (get_client_config s)
  | PostClientConfig body => Ret (post_client_config body s)
  | GetRoot => Ret (get_root s)
  | GetAuthLogout => Ret (get_auth_logout s)
  | GetApiMe => get_api_me s
  | GetApiSheets rq => get_api_sheets rq s
  | PostSheetsRefresh id => post_sheets_refresh id s
  | GetSheetsTabs id => get_sheets_tabs id s
  end.
End Server.

(** ** Vocabulary of the properties *)

Fixpoint zip_with {A B C} (f : A -> B -> C) (xs : list A) (ys : list B) : list C :=
  match xs, ys with
  | x :: xs', y :: ys' => f x y :: zip_with f xs' ys'
  | _, _ => []
  end.

(** How a logged call settled, read at the type of its kind. *)
Definition listed (e : event) : outcome file_list :=
  match e with
  | existT _ c r =>
      match c return reply c -> outcome file_list with
      | FilesList _ _ => fun r => r
      | _ => fun _ => Rejected
      end r
  end.

Definition fetched (e : event) : outcome value_range :=
  match e with
  | existT _ c r =>
      match c return reply c -> outcome value_range with
      | ValuesGet _ _ _ => fun r => r
      | _ => fun _ => Rejected
      end r
  end.

Definition logged (p : call -> bool) (e : event) : bool := p (call_of e).

(** The log entry of the preview fetch of one listed file. *)
Definition fetch_event (auth : authed_client) (f : file) (v : outcome value_range) : event :=
  Ev (ValuesGet auth (f_id f) "A1:E3") v.

(** What [GET /api/sheets] answers once the last listing [final] and the
    preview fetches [rest] have settled. *)
Definition sheets_response (final : event) (rest : list event) : response :=
  match listed final with
  | Resolved d =>
      res_json 200 (sheets_body (zip_with summarize (or_nil (files d)) (map fetched rest)))
  | Rejected => res_json 500 (error_body "Failed to list sheets")
  end.

Section Stream.
Context {W : Type} (remote : forall c : call, W -> reply c * W).
Variables (auth : authed_client) (ps : Z) (qs : string).

(** The token stream of the remote listing is at least [n] tokens deep
    from [tok]: [n] listings in a row resolve with a truthy
    [nextPageToken]. *)
Fixpoint deep (n : nat) (tok : option string) (w : W) : Prop :=
  match n with
  | O => True
  | S m =>
      exists d w',
        remote (FilesList auth (driveParams ps qs tok)) w = (Resolved d, w')
        /\ truthy (nextPageToken d) = true
        /\ deep m (nextPageToken d) w'
  end.

(** The stream runs dry within [n] listings from [tok]: after some
    truthy tokens a listing resolves with a falsy [nextPageToken],
    [last] being the token that listing was asked with. *)
Fixpoint exhausts (n : nat) (tok : option string) (w : W)
    (last : option string) (w_end : W) : Prop :=
  match n with
  | O => False
  | S m =>
      exists d w',
        remote (FilesList auth (driveParams ps qs tok)) w = (Resolved d, w')
        /\ if truthy (nextPageToken d)
           then exhausts m (nextPageToken d) w' last w_end
           else last = tok /\ w_end = w'
  end.
End Stream.

(** Doubling the single quotes of a string, as the specification words
    it. *)
Inductive doubled : string -> string -> Prop :=
| doubled_nil : doubled "" ""
| doubled_quote s t : doubled s t -> doubled (String quote s) (String quote (String quote t))
| doubled_other a s t : a <> quote -> doubled s t -> doubled (String a s) (String a t).

Fixpoint has_quote (s : string) : bool :=
  match s with
  | EmptyString => false
  | String a r => Ascii.eqb a quote || has_quote r
  end.

(** The range expression of a tab titled [t], as the specification words
    it: the title with its single quotes doubled, between single quotes,
    followed by [!A1:E3]; a title without a single quote stands as it
    is. *)
Definition range_spec (t : string) (range : string) : Prop :=
  exists esc,
    range = ("'" ++ esc ++ "'!A1:E3")%string
    /\ doubled t esc
    /\ (has_quote t = false -> esc = t).

(** The metadata request of [GET /api/sheets/:id/tabs]. *)
Definition metadata_call (auth : authed_client) (id : string) : call :=
  SpreadsheetsGet auth id "sheets(properties(sheetId,title,index))".

(** A field of the client configuration is set when it holds a non-empty
    string. *)
Definition field_set (v : option string) : Prop :=
  exists a r, v = Some (String a r).

(** The invariant of the stored client configuration. *)
Definition config_ok (c : client_config) : Prop :=
  exists cid sec uri,
    cfg_clientId c = Some cid /\ cfg_clientSecret c = Some sec /\ cfg_redirectUri c = Some uri
    /\ (10 <= strlen cid)%Z /\ (10 <= strlen sec)%Z /\ uri <> "".

Definition session_ok (s : session) : Prop :=
  match clientConfig s with
  | Some c => config_ok c
  | None => True
  end.

(** ** Concrete sessions and remotes *)

Module Demo.
Definition env : environment :=
  {| GOOGLE_CLIENT_ID := Some "env-client-id";
     GOOGLE_CLIENT_SECRET := Some "env-client-secret";
     GOOGLE_REDIRECT_URI := Some "http://localhost:4000/auth/callback";
     POST_LOGIN_REDIRECT := None |}.

(** The URI check used on the demo inputs. *)
Definition is_uri (s : string) : bool := String.prefix "http" s.

Definition bundle : token_bundle :=
  {| access_token := Some "ya29.token"; refresh_token := None |}.

Definition anonymous : session := fresh_session.
Definition logged_in : session := {| tokens := Some bundle; clientConfig := None |}.

Definition mk_file (id : string) : file :=
  {| f_id := id; f_name := Some ("sheet " ++ id)%string; f_owners := None;
     f_modifiedTime := Some "2024-01-01T00:00:00Z" |}.

(** A drive holding two pages: [a], [b], [c] then [d]; the preview of
    [b] cannot be fetched; the spreadsheet [a] has the tabs [Q1] and
    [it's], the spreadsheet [d] none. *)
Definition first_page : file_list :=
  {| files := Some [mk_file "a"; mk_file "b"; mk_file "c"]; nextPageToken := Some "t2" |}.
Definition last_page : file_list :=
  {| files := Some [mk_file "d"]; nextPageToken := None |}.

Definition cells (id : string) : value_range :=
  {| values := Some [[JStr id; JStr "x"]] |}.

Definition tabs_of (id : string) : spreadsheet :=
  if String.eqb id "a"
  then {| sheets := Some [ {| properties := Some {| sheetId := Some 0%Z; title := Some "Q1" |} |};
                           {| properties := Some {| sheetId := Some 7%Z; title := Some "it's" |} |} ] |}
  else {| sheets := Some [] |}.

Definition remote (c : call) (w : unit) : reply c * unit :=
  match c return reply c * unit with
  | GetToken _ _ => (Resolved bundle, w)
  | UserinfoGet _ =>
      (Resolved {| ui_id := Some "1"; ui_name := Some "Ann"; ui_email := None;
                   ui_picture := None |}, w)
  | FilesList _ p =>
      (match pageToken p with
       | None => Resolved first_page
       | Some t => if String.eqb t "t2" then Resolved last_page else Rejected
       end, w)
  | ValuesGet _ id _ =>
      (if String.eqb id "b" then Rejected else Resolved (cells id), w)
  | SpreadsheetsGet _ id _ => (Resolved (tabs_of id), w)
  | ValuesBatchGet _ _ rs =>
      (Resolved {| valueRanges := Some (map (fun r => {| values := Some [[JStr r]] |}) rs) |}, w)
  end.

Definition page_query (n : Z) : sheets_query :=
  {| page_param := Some (Integer n); pageSize_param := None;
     query_param := None; other_keys := [] |}.

Definition sheets_page (n : Z) : request := GetApiSheets (page_query n).

(** The answer to [GET /api/sheets?page=n] of a logged-in session. *)
Definition ask (n : Z) : response :=
  fst (result remote (handle is_uri env (sheets_page n) logged_in) tt).

Definition good_body : option json :=
  Some (JObj [ ("clientId", JStr "my-client-id.apps");
               ("clientSecret", JStr "my-client-secret");
               ("redirectUri", JStr "") ]).

Definition short_secret_body : option json :=
  Some (JObj [ ("clientId", JStr "my-client-id.apps");
               ("clientSecret", JStr "short") ]).

Definition configured : session :=
  snd (post_client_config is_uri env good_body logged_in).

(** A remote that rejects every call. *)
Definition offline (c : call) (w : unit) : reply c * unit :=
  match c return reply c * unit with
  | GetToken _ _ => (Rejected, w)
  | UserinfoGet _ => (Rejected, w)
  | FilesList _ _ => (Rejected, w)
  | ValuesGet _ _ _ => (Rejected, w)
  | SpreadsheetsGet _ _ _ => (Rejected, w)
  | ValuesBatchGet _ _ _ => (Rejected, w)
  end.
End Demo.


(** The listing calls of a log. *)
Definition listings (tr : list event) : list event := filter (logged is_files_list) tr.

(** The preliminary listings of a log follow the token stream: the
    first is asked with [tok], each one resolves with a truthy
    [nextPageToken] and the next is asked with exactly that token;
    [tok'] is the token the last one answered ([tok] itself when there
    is none). *)
Inductive token_chain (auth : authed_client) (ps : Z) (qs : string)
  : option string -> list event -> option string -> Prop :=
| token_chain_nil tok : token_chain auth ps qs tok [] tok
| token_chain_cons tok d tr tok' :
    truthy (nextPageToken d) = true ->
    token_chain auth ps qs (nextPageToken d) tr tok' ->
    token_chain auth ps qs tok
      (Ev (FilesList auth (driveParams ps qs tok)) (Resolved d) :: tr) tok'.

(** What reaches the application: a request that the middleware stack
    hands to its route, or one on which [express.json()] passes an error
    on because it cannot parse the body. *)
Inductive incoming : Type :=
| Routed (r : request)
| Unparsable.

(** [express.json()] is strict: a JSON body is an object or an array. *)
Definition strict_json (j : json) : bool :=
  match j with
  | JObj _ | JArr _ => true
  | _ => false
  end.

(** The error middleware registered last. *)
Definition internal_error : response := res_json 500 (error_body "Internal Server Error").

(** The application: the body parser in front of the router, and the
    error middleware behind it. A refused body never reaches a route,
    and the session, which is attached after the body is parsed, is not
    touched. *)
Definition app (is_uri : string -> bool) (env : environment)
    (i : incoming) (s : session) : prog (response * session) :=
  match i with
  | Unparsable => Ret (internal_error, s)
  | Routed (PostClientConfig (Some j)) =>
      if strict_json j then handle is_uri env (PostClientConfig (Some j)) s
      else Ret (internal_error, s)
  | Routed r => handle is_uri env r s
  end.

(** The sessions a browser can hold: the one of its first request, and
    the one any request leaves behind, whatever the remote answers. *)
Inductive reachable (is_uri : string -> bool) (env : environment) : session -> Prop :=
| reachable_fresh : reachable is_uri env fresh_session
| reachable_step (W : Type) (remote : forall c : call, W -> reply c * W)
    (r : request) (s : session) (w : W) :
    reachable is_uri env s ->
    reachable is_uri env (snd (result remote (handle is_uri env r s) w)).


(** ** Running programs *)

(** Every leaf of a program satisfies [P]. *)
Inductive leaves {A} (P : A -> Prop) : prog A -> Prop :=
| leaves_ret a : P a -> leaves P (Ret a)
| leaves_await c k : (forall r, leaves P (k r)) -> leaves P (Await c k).

#[local] Hint Constructors leaves : core.

Lemma leaves_bind {A B} (Q : A -> Prop) (P : B -> Prop) (p : prog A) (f : A -> prog B) :
  leaves Q p -> (forall a, Q a -> leaves P (f a)) -> leaves P (bind p f).
Proof.
  induction 1 as [a Ha | c k _ IH]; intros Hf; simpl.
  - now apply Hf.
  - constructor; intros r. now apply IH.
Qed.

Lemma leaves_any {A} (p : prog A) : leaves (fun _ => True) p.
Proof. induction p; auto. Qed.

Section RunFacts.
Context {W : Type} (remote : forall c : call, W -> reply c * W).

Lemma run_bind {A B} (p : prog A) (f : A -> prog B) (w : W) :
  run remote (bind p f) w =
  let '(a, w1, t1) := run remote p w in
  let '(b, w2, t2) := run remote (f a) w1 in
  (b, w2, t1 ++ t2).
Proof.
  revert w; induction p as [a | c k IH]; intros w; simpl.
  - destruct (run remote (f a) w) as [[b w2] t2]; reflexivity.
  - destruct (remote c w) as [r w1]. rewrite IH.
    destruct (run remote (k r) w1) as [[a w2] t1].
    destruct (run remote (f a) w2) as [[b w3] t2]; reflexivity.
Qed.

Lemma run_leaves {A} (P : A -> Prop) (p : prog A) (w : W) :
  leaves P p -> P (result remote p w).
Proof.
  unfold result. intros H; revert w; induction H as [a Ha | c k _ IH]; intros w; simpl.
  - exact Ha.
  - destruct (remote c w) as [r w1]. specialize (IH r w1).
    destruct (run remote (k r) w1) as [[a w2] tr]; exact IH.
Qed.

Lemma run_ret_inv {A} (p : prog A) (a : A) (w : W) :
  p = Ret a -> run remote p w = (a, w, []).
Proof. intros ->; reflexivity. Qed.
End RunFacts.

(** ** The authentication guard *)

(** C2: an authenticated route asked without a token set makes no remote
    call and answers 401 with the body [{error: "Unauthorized"}]; the
    session is left as it was. *)
Theorem unauthenticated_is_rejected
    (is_uri : string -> bool) (env : environment)
    (W : Type) (remote : forall c : call, W -> reply c * W)
    (r : request) (s : session) (w : W) :
  authenticated_route r = true ->
  tokens s = None ->
  run remote (handle is_uri env r s) w = ((unauthorized, s), w, [])
  /\ status unauthorized = 401%Z
  /\ content unauthorized = Json (JObj [("error", JStr "Unauthorized")]).
Proof.
  intros Hr Ht. split; [| split; reflexivity].
  apply run_ret_inv.
  destruct r; try discriminate Hr; simpl;
    unfold get_api_me, get_api_sheets, post_sheets_refresh, get_sheets_tabs, ensureAuthed;
    rewrite Ht; reflexivity.
Qed.

Lemma unauthenticated_is_rejected_witness :
  authenticated_route (Demo.sheets_page 2) = true
  /\ tokens Demo.anonymous = None
  /\ run Demo.remote (handle Demo.is_uri Demo.env (Demo.sheets_page 2) Demo.anonymous) tt
     = ((unauthorized, Demo.anonymous), tt, []).
Proof.
  split; [reflexivity | split; [reflexivity |]].
  apply (unauthenticated_is_rejected Demo.is_uri Demo.env Demo.remote
           (Demo.sheets_page 2) Demo.anonymous tt); reflexivity.
Defined.

(** ** The OAuth client factory *)

Lemma js_or_set (a b : option string) : field_set a -> js_or a b = a.
Proof. intros (c & r & ->); reflexivity. Qed.

Lemma js_or_unset (a b : option string) : ~ field_set a -> js_or a b = b.
Proof.
  intros H. destruct a as [[| c r] |]; try reflexivity.
  exfalso; apply H; now exists c, r.
Qed.

(** C4: [getOAuthClient] chooses each of [clientId], [clientSecret] and
    [redirectUri] on its own: the session's value where the session's
    client configuration sets that field, the environment's otherwise,
    whatever the other two fields are. *)
Theorem getOAuthClient_per_field (env : environment) (s : session) :
  let own := chain (clientConfig s) in
  let c := getOAuthClient env s in
  (field_set (own cfg_clientId) -> clientId c = own cfg_clientId)
  /\ (~ field_set (own cfg_clientId) -> clientId c = GOOGLE_CLIENT_ID env)
  /\ (field_set (own cfg_clientSecret) -> clientSecret c = own cfg_clientSecret)
  /\ (~ field_set (own cfg_clientSecret) -> clientSecret c = GOOGLE_CLIENT_SECRET env)
  /\ (field_set (own cfg_redirectUri) -> redirectUri c = own cfg_redirectUri)
  /\ (~ field_set (own cfg_redirectUri) -> redirectUri c = GOOGLE_REDIRECT_URI env).
Proof.
  cbv zeta. unfold getOAuthClient; simpl.
  repeat split; intros H; (apply js_or_set || apply js_or_unset); exact H.
Qed.

(** A session that sets only [clientId]: the client takes it from the
    session and the two other fields from the environment. *)
Lemma getOAuthClient_per_field_witness :
  let s := {| tokens := None;
              clientConfig := Some {| cfg_clientId := Some "session-client-id";
                                      cfg_clientSecret := None;
                                      cfg_redirectUri := None |} |} in
  getOAuthClient Demo.env s
  = {| clientId := Some "session-client-id";
       clientSecret := Some "env-client-secret";
       redirectUri := Some "http://localhost:4000/auth/callback" |}.
Proof.
  cbv zeta.
  pose proof (getOAuthClient_per_field Demo.env
                {| tokens := None;
                   clientConfig := Some {| cfg_clientId := Some "session-client-id";
                                           cfg_clientSecret := None;
                                           cfg_redirectUri := None |} |})
    as (Hid & _ & _ & Hsec & _ & Huri).
  cbv zeta in *.
  assert (Hset : field_set (Some "session-client-id")) by (eexists; eexists; reflexivity).
  assert (Hunset : ~ field_set None) by (intros (a & r & E); discriminate E).
  specialize (Hid Hset). specialize (Hsec Hunset). specialize (Huri Hunset).
  destruct (getOAuthClient Demo.env _) as [i x u]; simpl in *.
  rewrite Hid, Hsec, Huri. reflexivity.
Defined.

(** ** The client configuration endpoints *)

Lemma string_min_required_ok (label : string) (limit : Z) (v : option json) (s : string) :
  string_min_required label limit v = inr s ->
  v = Some (JStr s) /\ s <> "" /\ (limit <= strlen s)%Z.
Proof.
  unfold string_min_required.
  destruct v as [[| | | [| a r] | |] |]; try discriminate.
  destruct (Z.ltb_spec (strlen (String a r)) limit); try discriminate.
  intros [= <-]. repeat split; [discriminate | assumption].
Qed.

Lemma string_min_required_short (label : string) (limit : Z) (s : string) :
  (strlen s < limit)%Z ->
  exists e, string_min_required label limit (Some (JStr s)) = inl e.
Proof.
  intros H. unfold string_min_required. destruct s as [| a r].
  - eexists; reflexivity.
  - destruct (Z.ltb_spec (strlen (String a r)) limit); [eexists; reflexivity | lia].
Qed.

Lemma js_or_lit_nonempty (a : option string) (d : string) :
  d <> "" -> js_or_lit a d <> "".
Proof. intros Hd. destruct a as [[| c r] |]; simpl; try assumption; discriminate. Qed.

Lemma default_redirect_nonempty (env : environment) : default_redirect env <> "".
Proof. apply js_or_lit_nonempty; discriminate. Qed.

(** What a valid post stores and answers. *)
Lemma post_client_config_valid
    (is_uri : string -> bool) (env : environment) (body : option json) (s : session)
    (v : client_config_value) :
  validate_client_config is_uri env (body_or_empty body) = inr v ->
  exists uri,
    uri <> ""
    /\ (uri = v_redirectUri v \/ uri = default_redirect env)
    /\ (10 <= strlen (v_clientId v))%Z
    /\ (10 <= strlen (v_clientSecret v))%Z
    /\ post_client_config is_uri env body s
       = (res_json 200 (JObj [("ok", JBool true); ("redirectUri", JStr uri)]),
          {| tokens := tokens s;
             clientConfig := Some {| cfg_clientId := Some (v_clientId v);
                                     cfg_clientSecret := Some (v_clientSecret v);
                                     cfg_redirectUri := Some uri |} |}).
Proof.
  intros Hv. unfold post_client_config. rewrite Hv.
  assert (Hlen : (10 <= strlen (v_clientId v))%Z /\ (10 <= strlen (v_clientSecret v))%Z).
  { unfold validate_client_config in Hv.
    destruct (body_or_empty body) as [| | | | | fs]; try discriminate.
    destruct (string_min_required "clientId" 10 (assoc "clientId" fs)) as [e | cid] eqn:E1;
      try discriminate.
    destruct (string_min_required "clientSecret" 10 (assoc "clientSecret" fs)) as [e | sec] eqn:E2;
      try discriminate.
    destruct (optional_uri is_uri env "redirectUri" (assoc "redirectUri" fs)); try discriminate.
    injection Hv as <-; simpl.
    apply string_min_required_ok in E1, E2. tauto. }
  destruct (v_redirectUri v) as [| a r] eqn:Euri.
  - exists (default_redirect env). simpl.
    repeat split; try tauto. apply default_redirect_nonempty.
  - exists (String a r).
    assert (Hpos : (0 <? strlen (String a r))%Z = true)
      by (apply Z.ltb_lt; unfold strlen; simpl String.length; lia).
    cbn [truthy andb]. rewrite Hpos.
    repeat split; try tauto. discriminate.
Qed.

(** C5: a post whose [clientSecret] is a string shorter than 10
    characters is answered 400 with the message of the validation error,
    and the session, a client configuration stored earlier included, is
    the one the request came with. *)
Theorem short_secret_is_rejected
    (is_uri : string -> bool) (env : environment)
    (fs : list (string * json)) (sec : string) (s : session) :
  assoc "clientSecret" fs = Some (JStr sec) ->
  (strlen sec < 10)%Z ->
  exists e,
    validate_client_config is_uri env (JObj fs) = inl e
    /\ handle is_uri env (PostClientConfig (Some (JObj fs))) s
       = Ret (res_json 400 (JObj [("error", JStr (message e))]), s).
Proof.
  intros Hsec Hshort.
  assert (He : exists e, validate_client_config is_uri env (JObj fs) = inl e).
  { unfold validate_client_config.
    destruct (string_min_required "clientId" 10 (assoc "clientId" fs)) as [e | cid];
      [now exists e |].
    rewrite Hsec.
    destruct (string_min_required_short "clientSecret" sec Hshort) as [e ->].
    now exists e. }
  destruct He as [e He]. exists e. split; [exact He |].
  simpl. unfold post_client_config. simpl body_or_empty. rewrite He. reflexivity.
Qed.

Lemma short_secret_is_rejected_witness :
  handle Demo.is_uri Demo.env (PostClientConfig Demo.short_secret_body) Demo.configured
  = Ret (res_json 400 (JObj [("error", JStr (message (StringMin "clientSecret" 10)))]),
         Demo.configured).
Proof.
  destruct (short_secret_is_rejected Demo.is_uri Demo.env
              [ ("clientId", JStr "my-client-id.apps"); ("clientSecret", JStr "short") ]
              (sec := "short") Demo.configured eq_refl eq_refl) as (e & He & Hh).
  vm_compute in He. injection He as <-. exact Hh.
Defined.

Lemma post_client_config_status
    (is_uri : string -> bool) (env : environment) (body : option json) (s : session) :
  status (fst (post_client_config is_uri env body s)) = 200%Z ->
  exists v, validate_client_config is_uri env (body_or_empty body) = inr v.
Proof.
  unfold post_client_config.
  destruct (validate_client_config is_uri env (body_or_empty body)) as [e | v].
  - simpl. discriminate.
  - intros _. now exists v.
Qed.

(** The answer of [GET /auth/client-config] has no other property names
    than [configured], [config] and [redirectUri]. *)
Lemma get_client_config_keys (s : session) :
  exists j,
    content (fst (get_client_config s)) = Json j
    /\ incl (json_keys j) ["configured"; "config"; "redirectUri"].
Proof.
  unfold get_client_config. eexists; split; [reflexivity |].
  destruct (truthy (chain (clientConfig s) cfg_clientId)
            && truthy (chain (clientConfig s) cfg_clientSecret)).
  - destruct (chain (clientConfig s) cfg_redirectUri); simpl;
      intros x Hx; simpl in *; tauto.
  - simpl. intros x Hx; simpl in *; tauto.
Qed.

(** Two sessions whose configurations differ in the identifier and the
    secret only get the same answer. *)
Lemma get_client_config_hides_credentials
    (t1 t2 : option token_bundle) (id1 id2 sec1 sec2 : option string) (uri : option string) :
  truthy id1 = truthy id2 ->
  truthy sec1 = truthy sec2 ->
  fst (get_client_config
         {| tokens := t1;
            clientConfig := Some {| cfg_clientId := id1; cfg_clientSecret := sec1;
                                    cfg_redirectUri := uri |} |})
  = fst (get_client_config
           {| tokens := t2;
              clientConfig := Some {| cfg_clientId := id2; cfg_clientSecret := sec2;
                                      cfg_redirectUri := uri |} |}).
Proof. intros H1 H2. unfold get_client_config; simpl. rewrite H1, H2. reflexivity. Qed.

(** C6: after a valid post, a get on the session the post left answers
    [configured: true] with a [config] object holding exactly the stored
    [redirectUri]; and whatever the session, the answer of a get names
    neither [clientSecret] nor [clientId]. *)
Theorem valid_post_then_get
    (is_uri : string -> bool) (env : environment)
    (body : option json) (s s' : session) (resp : response) :
  handle is_uri env (PostClientConfig body) s = Ret (resp, s') ->
  status resp = 200%Z ->
  (exists uri,
      chain (clientConfig s') cfg_redirectUri = Some uri
      /\ handle is_uri env GetClientConfig s'
         = Ret (res_json 200
                  (JObj [ ("configured", JBool true);
                          ("config", JObj [("redirectUri", JStr uri)]) ]),
                s'))
  /\ (forall s0 : session,
         exists j,
           handle is_uri env GetClientConfig s0 = Ret (res_json 200 j, s0)
           /\ ~ In "clientSecret" (json_keys j)
           /\ ~ In "clientId" (json_keys j)).
Proof.
  simpl. intros [= Hpost] Hst. split.
  - assert (Hst' : status (fst (post_client_config is_uri env body s)) = 200%Z)
      by (rewrite Hpost; exact Hst).
    destruct (post_client_config_status _ _ _ _ Hst') as [v Hv].
    destruct (post_client_config_valid is_uri env body s Hv)
      as (uri & Hne & _ & Hid & Hsec & E).
    rewrite E in Hpost. injection Hpost as _ <-.
    exists uri. split; [reflexivity |].
    unfold get_client_config; simpl.
    destruct (v_clientId v) as [| a r] eqn:Ea; [unfold strlen in Hid; simpl in Hid; lia |].
    destruct (v_clientSecret v) as [| b t] eqn:Eb; [unfold strlen in Hsec; simpl in Hsec; lia |].
    reflexivity.
  - intros s0. destruct (get_client_config_keys s0) as (j & Hj & Hk).
    exists j. unfold get_client_config in *; simpl in Hj. injection Hj as Hj.
    split; [rewrite <- Hj; reflexivity |].
    split; intros Hin; apply Hk in Hin; simpl in Hin;
      repeat (destruct Hin as [Hin | Hin]; [discriminate Hin |]); exact Hin.
Qed.

Lemma valid_post_then_get_witness :
  handle Demo.is_uri Demo.env GetClientConfig Demo.configured
  = Ret (res_json 200
           (JObj [ ("configured", JBool true);
                   ("config", JObj [("redirectUri", JStr "http://localhost:4000/auth/callback")]) ]),
         Demo.configured).
Proof.
  destruct (@valid_post_then_get Demo.is_uri Demo.env Demo.good_body
              Demo.logged_in Demo.configured
              (fst (post_client_config Demo.is_uri Demo.env Demo.good_body Demo.logged_in))
              eq_refl eq_refl) as [(uri & Hs & Hg) _].
  vm_compute in Hs. injection Hs as <-. exact Hg.
Defined.

(** ** The invariant of the stored client configuration *)

Lemma post_client_config_ok
    (is_uri : string -> bool) (env : environment) (body : option json) (s : session) :
  session_ok s -> session_ok (snd (post_client_config is_uri env body s)).
Proof.
  intros Hs.
  destruct (validate_client_config is_uri env (body_or_empty body)) as [e | v] eqn:Hv.
  - unfold post_client_config. rewrite Hv. exact Hs.
  - destruct (post_client_config_valid is_uri env body s Hv)
      as (uri & Hne & _ & Hid & Hsec & ->).
    simpl. now exists (v_clientId v), (v_clientSecret v), uri.
Qed.

Lemma handle_leaves_ok
    (is_uri : string -> bool) (env : environment) (r : request) (s : session) :
  session_ok s ->
  leaves (fun out => session_ok (snd out)) (handle is_uri env r s).
Proof.
  intros Hs.
  assert (Htok : forall t, session_ok {| tokens := t; clientConfig := clientConfig s |})
    by (intros t; exact Hs).
  destruct r; simpl.
  - constructor; exact Hs.
  - unfold get_auth_callback. destruct (negb (truthy code)).
    + constructor; exact Hs.
    + simpl. constructor; intros [t |]; constructor; simpl; auto.
  - constructor; exact Hs.
  - constructor. now apply post_client_config_ok.
  - constructor; exact Hs.
  - constructor; exact I.
  - unfold get_api_me, ensureAuthed. destruct (tokens s).
    + simpl. constructor; intros [me |]; constructor; exact Hs.
    + constructor; exact Hs.
  - unfold get_api_sheets, ensureAuthed. destruct (tokens s).
    + destruct (validate_sheets_query rq) as [e | v].
      * constructor; exact Hs.
      * apply leaves_bind with (Q := fun _ => True); [apply leaves_any |].
        intros [items |] _; constructor; exact Hs.
    + constructor; exact Hs.
  - unfold post_sheets_refresh, ensureAuthed. destruct (tokens s); constructor; exact Hs.
  - unfold get_sheets_tabs, ensureAuthed. destruct (tokens s).
    + simpl. constructor; intros [meta |]; [| constructor; exact Hs].
      destruct (Nat.eqb _ 0); constructor; [exact Hs |].
      intros b; constructor; exact Hs.
    + constructor; exact Hs.
Qed.

(** C10: the session of a first request satisfies the invariant, and
    every request, whatever the remote answers, leaves a session that
    satisfies it: a stored client configuration has a [clientId] and a
    [clientSecret] of at least 10 characters and a non-empty
    [redirectUri]. *)
Theorem session_ok_preserved
    (is_uri : string -> bool) (env : environment)
    (W : Type) (remote : forall c : call, W -> reply c * W)
    (r : request) (s : session) (w : W) :
  session_ok s ->
  session_ok fresh_session
  /\ session_ok (snd (result remote (handle is_uri env r s) w)).
Proof.
  intros Hs. split; [exact I |].
  apply run_leaves with (P := fun out => session_ok (snd out)).
  now apply handle_leaves_ok.
Qed.

Lemma session_ok_preserved_witness :
  session_ok Demo.logged_in
  /\ session_ok
       (snd (result Demo.remote
               (handle Demo.is_uri Demo.env (PostClientConfig Demo.good_body) Demo.logged_in)
               tt)).
Proof.
  split; [exact I |].
  apply (@session_ok_preserved Demo.is_uri Demo.env unit Demo.remote
           (PostClientConfig Demo.good_body) Demo.logged_in tt I).
Defined.

(** ** The tabs of a spreadsheet *)

Lemma replace_all_doubled (s : string) : doubled s (replace_all quote "''" s).
Proof.
  induction s as [| a r IH]; simpl.
  - constructor.
  - destruct (Ascii.eqb_spec a quote) as [-> | Hne].
    + simpl. now constructor.
    + now constructor.
Qed.

Lemma doubled_unique (s t : string) : doubled s t -> t = replace_all quote "''" s.
Proof.
  induction 1 as [| s t _ IH | a s t Hne _ IH]; simpl.
  - reflexivity.
  - now rewrite IH.
  - destruct (Ascii.eqb_spec a quote) as [E | _]; [contradiction | now rewrite IH].
Qed.

Lemma replace_all_no_match (c : ascii) (rep : string) (s : string) :
  (forall a, In a (list_ascii_of_string s) -> a <> c) -> replace_all c rep s = s.
Proof.
  induction s as [| a r IH]; simpl; intros H; [reflexivity |].
  destruct (Ascii.eqb_spec a c) as [E | _].
  - exfalso. now apply (H a); [left |].
  - f_equal. apply IH. intros b Hb. apply H. now right.
Qed.

Lemma has_quote_false (s : string) :
  has_quote s = false -> forall a, In a (list_ascii_of_string s) -> a <> quote.
Proof.
  induction s as [| b r IH]; simpl; intros H a Ha; [contradiction |].
  apply orb_false_iff in H as [Hb Hr].
  destruct Ha as [<- | Ha].
  - now apply Ascii.eqb_neq.
  - now apply IH.
Qed.

Lemma tab_range_spec (p : sheet_properties) : range_spec (to_String (title p)) (tab_range p).
Proof.
  exists (replace_all quote "''" (to_String (title p))). split; [reflexivity |].
  split; [apply replace_all_doubled |].
  intros H. apply replace_all_no_match. now apply has_quote_false.
Qed.

(** C8: when the metadata of the spreadsheet lists no tab, the answer is
    [{items: []}] and the metadata request is the only remote call: no
    [values.batchGet] is attempted. *)
Theorem no_tabs_no_batch
    (is_uri : string -> bool) (env : environment)
    (W : Type) (remote : forall c : call, W -> reply c * W)
    (id : string) (s : session) (w w1 : W) (meta : spreadsheet) :
  tokens s <> None ->
  remote (metadata_call (getAuthedClients env (tokens s) s) id) w = (Resolved meta, w1) ->
  sheetProps_of meta = [] ->
  run remote (handle is_uri env (GetSheetsTabs id) s) w
  = ((res_json 200 (JObj [("items", JArr [])]), s), w1,
     [Ev (metadata_call (getAuthedClients env (tokens s) s) id) (Resolved meta)]).
Proof.
  intros Ht Hm Hz. simpl. unfold get_sheets_tabs, ensureAuthed.
  destruct (tokens s) as [t |] eqn:Et; [| contradiction].
  unfold metadata_call in Hm. simpl. rewrite Hm, Hz. reflexivity.
Qed.

Lemma no_tabs_no_batch_witness :
  run Demo.remote (handle Demo.is_uri Demo.env (GetSheetsTabs "d") Demo.logged_in) tt
  = ((res_json 200 (JObj [("items", JArr [])]), Demo.logged_in), tt,
     [Ev (metadata_call (getAuthedClients Demo.env (tokens Demo.logged_in) Demo.logged_in) "d")
         (Resolved (Demo.tabs_of "d"))]).
Proof.
  apply (@no_tabs_no_batch Demo.is_uri Demo.env unit Demo.remote "d" Demo.logged_in tt tt
           (Demo.tabs_of "d")).
  - discriminate.
  - reflexivity.
  - reflexivity.
Defined.

(** C9: when the spreadsheet has tabs, the second remote call is the
    [values.batchGet], and its ranges are, tab by tab, the title with
    every single quote doubled, wrapped in single quotes and followed by
    [!A1:E3]; a title without a single quote is embedded as it is. *)
Theorem tab_ranges_escaped
    (is_uri : string -> bool) (env : environment)
    (W : Type) (remote : forall c : call, W -> reply c * W)
    (id : string) (s : session) (w w1 : W) (meta : spreadsheet) :
  tokens s <> None ->
  remote (metadata_call (getAuthedClients env (tokens s) s) id) w = (Resolved meta, w1) ->
  sheetProps_of meta <> [] ->
  exists ranges b,
    nth_error (trace remote (handle is_uri env (GetSheetsTabs id) s) w) 1
    = Some (Ev (ValuesBatchGet (getAuthedClients env (tokens s) s) id ranges) b)
    /\ Forall2 (fun p range => range_spec (to_String (title p)) range)
               (sheetProps_of meta) ranges.
Proof.
  intros Ht Hm Hnz. unfold trace. simpl. unfold get_sheets_tabs, ensureAuthed.
  destruct (tokens s) as [t |] eqn:Et; [| contradiction].
  unfold metadata_call in Hm. simpl. rewrite Hm.
  destruct (sheetProps_of meta) as [| p ps] eqn:Ep; [contradiction |].
  simpl.
  destruct (remote (ValuesBatchGet _ id _) w1) as [b w2] eqn:Eb.
  exists (map tab_range (p :: ps)), b. split; [reflexivity |].
  clear. induction (p :: ps) as [| x xs IH]; simpl; constructor; auto using tab_range_spec.
Qed.

Lemma tab_ranges_escaped_witness :
  exists ranges b,
    nth_error (trace Demo.remote
                 (handle Demo.is_uri Demo.env (GetSheetsTabs "a") Demo.logged_in) tt) 1
    = Some (Ev (ValuesBatchGet
                  (getAuthedClients Demo.env (tokens Demo.logged_in) Demo.logged_in)
                  "a" ranges) b)
    /\ Forall2 (fun p range => range_spec (to_String (title p)) range)
               (sheetProps_of (Demo.tabs_of "a")) ranges.
Proof.
  apply (@tab_ranges_escaped Demo.is_uri Demo.env unit Demo.remote "a" Demo.logged_in tt tt
           (Demo.tabs_of "a")).
  - discriminate.
  - reflexivity.
  - discriminate.
Defined.

Example tab_range_plain : tab_range {| sheetId := Some 0%Z; title := Some "Q1" |} = "'Q1'!A1:E3".
Proof. reflexivity. Qed.

Example tab_range_quoted :
  tab_range {| sheetId := Some 7%Z; title := Some "it's" |} = "'it''s'!A1:E3".
Proof. reflexivity. Qed.

(** ** Listing spreadsheets *)

Lemma zip_with_length {A B C} (f : A -> B -> C) (xs : list A) (ys : list B) :
  List.length ys = List.length xs -> List.length (zip_with f xs ys) = List.length xs.
Proof.
  revert ys; induction xs as [| x xs IH]; intros [| y ys]; simpl; try discriminate; auto.
Qed.

Lemma zip_with_nth {A B C} (f : A -> B -> C) (xs : list A) (ys : list B) i x y :
  nth_error xs i = Some x -> nth_error ys i = Some y ->
  nth_error (zip_with f xs ys) i = Some (f x y).
Proof.
  revert ys i; induction xs as [| x0 xs IH]; intros [| y0 ys] [| i]; simpl;
    try discriminate; auto.
  now intros [= ->] [= ->].
Qed.

Section Listing.
Context {W : Type} (remote : forall c : call, W -> reply c * W).
Variables (auth : authed_client) (ps : Z) (qs : string).

Lemma fetched_fetch_events (fs : list file) (vs : list (outcome value_range)) :
  List.length vs = List.length fs -> map fetched (zip_with (fetch_event auth) fs vs) = vs.
Proof.
  revert vs; induction fs as [| f fs IH]; intros [| v vs]; simpl; try discriminate; auto.
  intros [= H]. now rewrite IH.
Qed.

Lemma fetch_events_logged (fs : list file) (vs : list (outcome value_range)) :
  Forall (fun e => logged is_values_get e = true) (zip_with (fetch_event auth) fs vs).
Proof.
  revert vs; induction fs as [| f fs IH]; intros [| v vs]; simpl; constructor; auto.
Qed.

(** One fetch per file, in order; the summaries pair each file with
    the outcome of its own fetch. *)
Lemma run_previews (fs : list file) (w : W) :
  exists vs w',
    List.length vs = List.length fs
    /\ run remote (previews auth fs) w
       = (zip_with summarize fs vs, w', zip_with (fetch_event auth) fs vs).
Proof.
  revert w; induction fs as [| f fs IH]; intros w.
  - exists [], w. split; reflexivity.
  - simpl. destruct (remote (ValuesGet auth (f_id f) "A1:E3") w) as [v w1].
    rewrite run_bind. destruct (IH w1) as (vs & w' & Hlen & ->).
    exists (v :: vs), w'. simpl. rewrite app_nil_r.
    split; [now rewrite Hlen | reflexivity].
Qed.

(** The loop only lists, at most [n] times. *)
Lemma run_skip_pages (n : nat) (tok : option string) (w : W) :
  exists out w' tr,
    run remote (skip_pages auth ps qs n tok) w = (out, w', tr)
    /\ Forall (fun e => logged is_files_list e = true) tr
    /\ (List.length tr <= n)%nat.
Proof.
  revert tok w; induction n as [| n IH]; intros tok w.
  - exists (Resolved tok), w, []. repeat split; auto.
  - simpl. destruct (remote (FilesList auth (driveParams ps qs tok)) w) as [[d |] w1].
    + destruct (truthy (nextPageToken d)); simpl.
      * destruct (IH (nextPageToken d) w1) as (out & w' & tr & -> & Hall & Hlen).
        eexists _, _, _. split; [reflexivity |]. split; [constructor; auto | simpl; lia].
      * eexists _, _, _. split; [reflexivity |].
        split; [repeat constructor | simpl; lia].
    + simpl. eexists _, _, _. split; [reflexivity |].
      split; [repeat constructor | simpl; lia].
Qed.

(** On a stream deep enough the loop lists exactly [n] times. *)
Lemma run_skip_pages_deep (n : nat) (tok : option string) (w : W) :
  deep remote auth ps qs n tok w ->
  exists tok' w' tr,
    run remote (skip_pages auth ps qs n tok) w = (Resolved tok', w', tr)
    /\ Forall (fun e => logged is_files_list e = true) tr
    /\ List.length tr = n.
Proof.
  revert tok w; induction n as [| n IH]; intros tok w.
  - intros _. exists tok, w, []. repeat split; auto.
  - intros (d & w1 & Hr & Ht & Hd). simpl. rewrite Hr, Ht. simpl.
    destruct (IH _ _ Hd) as (tok' & w' & tr & -> & Hall & Hlen).
    eexists _, _, _. split; [reflexivity |]. split; [constructor; auto | simpl; lia].
Qed.

(** On a stream that runs dry the loop ends with a falsy token: the
    token [last] of the last page is not kept. *)
Lemma run_skip_pages_exhausted (n : nat) (tok last : option string) (w w_end : W) :
  exhausts remote auth ps qs n tok w last w_end ->
  exists tok' tr,
    run remote (skip_pages auth ps qs n tok) w = (Resolved tok', w_end, tr)
    /\ truthy tok' = false.
Proof.
  revert tok w; induction n as [| n IH]; intros tok w; simpl; [contradiction |].
  intros (d & w1 & Hr & H). rewrite Hr.
  destruct (truthy (nextPageToken d)) eqn:Ht; simpl.
  - destruct (IH _ _ H) as (tok' & tr & -> & Hf). eauto.
  - destruct H as [_ ->]. eauto.
Qed.

(** The shape of every run of the [try] block: some preliminary
    listings, then, unless one of them rejected, the final listing,
    then, if it resolved, one fetch per listed file. *)
Lemma run_list_sheets (pg : Z) (w : W) :
  exists prelim,
    Forall (fun e => logged is_files_list e = true) prelim
    /\ (Z.of_nat (List.length prelim) <= Z.max 0 (pg - 1))%Z
    /\ ((exists w', run remote (list_sheets auth ps qs pg) w = (Rejected, w', prelim))
        \/ (exists final w',
               logged is_files_list final = true
               /\ listed final = Rejected
               /\ run remote (list_sheets auth ps qs pg) w
                  = (Rejected, w', prelim ++ [final]))
        \/ (exists final d vs w',
               logged is_files_list final = true
               /\ listed final = Resolved d
               /\ List.length vs = List.length (or_nil (files d))
               /\ run remote (list_sheets auth ps qs pg) w
                  = (Resolved (zip_with summarize (or_nil (files d)) vs), w',
                     prelim ++ final :: zip_with (fetch_event auth) (or_nil (files d)) vs))).
Proof.
  unfold list_sheets. rewrite run_bind.
  destruct (run_skip_pages (Z.to_nat (pg - 1)) None w) as (out & w1 & tr & -> & Hall & Hlen).
  exists tr. split; [exact Hall |]. split; [lia |].
  destruct out as [tok |]; [| left; exists w1; simpl; now rewrite app_nil_r].
  right. simpl.
  destruct (remote (FilesList auth (driveParams ps qs tok)) w1) as [[d |] w2] eqn:Hr.
  - right. rewrite run_bind.
    destruct (run_previews (or_nil (files d)) w2) as (vs & w3 & Hvs & ->).
    exists (Ev (FilesList auth (driveParams ps qs tok)) (Resolved d)), d, vs, w3.
    repeat split; auto. simpl. now rewrite app_nil_r.
  - left. exists (Ev (FilesList auth (driveParams ps qs tok)) Rejected), w2.
    repeat split.
Qed.

(** The same on a stream deep enough for page [pg]. *)
Lemma run_list_sheets_deep (pg : Z) (w : W) :
  (1 <= pg)%Z ->
  deep remote auth ps qs (Z.to_nat (pg - 1)) None w ->
  exists prelim final rest out w',
    run remote (list_sheets auth ps qs pg) w = (out, w', prelim ++ final :: rest)
    /\ Z.of_nat (List.length prelim) = (pg - 1)%Z
    /\ Forall (fun e => logged is_files_list e = true) prelim
    /\ logged is_files_list final = true
    /\ Forall (fun e => logged is_values_get e = true) rest
    /\ match listed final with
       | Resolved d =>
           out = Resolved (zip_with summarize (or_nil (files d)) (map fetched rest))
       | Rejected => out = Rejected
       end.
Proof.
  intros Hpg Hdeep. unfold list_sheets. rewrite run_bind.
  destruct (run_skip_pages_deep _ _ _ Hdeep) as (tok & w1 & tr & -> & Hall & Hlen).
  simpl.
  destruct (remote (FilesList auth (driveParams ps qs tok)) w1) as [[d |] w2] eqn:Hr.
  - rewrite run_bind.
    destruct (run_previews (or_nil (files d)) w2) as (vs & w3 & Hvs & ->).
    exists tr, (Ev (FilesList auth (driveParams ps qs tok)) (Resolved d)),
      (zip_with (fetch_event auth) (or_nil (files d)) vs), (Resolved (zip_with summarize (or_nil (files d)) vs)), w3.
    simpl. rewrite app_nil_r, fetched_fetch_events by exact Hvs.
    repeat split; auto using fetch_events_logged. lia.
  - exists tr, (Ev (FilesList auth (driveParams ps qs tok)) Rejected), [], Rejected, w2.
    simpl. repeat split; auto. lia.
Qed.
End Listing.





Section ListingShape.
Context {W : Type} (remote : forall c : call, W -> reply c * W).
Variables (auth : authed_client) (ps : Z) (qs : string).



(** The loop gives up only on a listing that rejected. *)
Lemma run_skip_pages_outcome (n : nat) (tok : option string) (w : W) :
  exists out w' tr,
    run remote (skip_pages auth ps qs n tok) w = (out, w', tr)
    /\ Forall (fun e => logged is_files_list e = true) tr
    /\ (out = Rejected -> exists e, In e tr /\ listed e = Rejected).
Proof.
  revert tok w; induction n as [| n IH]; intros tok w.
  - exists (Resolved tok), w, []. repeat split; [constructor | discriminate].
  - simpl. destruct (remote (FilesList auth (driveParams ps qs tok)) w) as [[d |] w1].
    + destruct (truthy (nextPageToken d)); simpl.
      * destruct (IH (nextPageToken d) w1) as (out & w' & tr & -> & Hall & Hrej).
        eexists _, _, _. split; [reflexivity |]. split; [constructor; auto |].
        intros Ho. destruct (Hrej Ho) as (e & He & Hl). exists e. split; [now right | exact Hl].
      * eexists _, _, _. split; [reflexivity |].
        split; [repeat constructor | discriminate].
    + simpl. eexists _, _, _. split; [reflexivity |]. split; [repeat constructor |].
      intros _. eexists. split; [now left | reflexivity].
Qed.

Lemma In_listings (e : event) (tr : list event) :
  In e tr -> logged is_files_list e = true -> In e (listings tr).
Proof. intros Hin He. apply filter_In. now split. Qed.

(** When no listing rejects, the [try] block runs to its end: the
    preliminary listings, the final one, then one fetch per listed file,
    each summarised with the outcome of its own fetch. *)
Lemma run_list_sheets_resolved (pg : Z) (w : W) :
  Forall (fun e => listed e <> Rejected)
         (listings (trace remote (list_sheets auth ps qs pg) w)) ->
  exists prelim final d vs w',
    Forall (fun e => logged is_files_list e = true) prelim
    /\ logged is_files_list final = true
    /\ listed final = Resolved d
    /\ List.length vs = List.length (or_nil (files d))
    /\ run remote (list_sheets auth ps qs pg) w
       = (Resolved (zip_with summarize (or_nil (files d)) vs), w',
          prelim ++ final :: zip_with (fetch_event auth) (or_nil (files d)) vs).
Proof.
  unfold trace, list_sheets. rewrite run_bind.
  destruct (run_skip_pages_outcome (Z.to_nat (pg - 1)) None w)
    as (out & w1 & tr & -> & Hall & Hrej).
  destruct out as [tok |].
  - simpl.
    destruct (remote (FilesList auth (driveParams ps qs tok)) w1) as [[d |] w2] eqn:Hr.
    + rewrite run_bind.
      destruct (run_previews remote auth (or_nil (files d)) w2) as (vs & w3 & Hvs & ->).
      simpl. rewrite app_nil_r. intros _.
      exists tr, (Ev (FilesList auth (driveParams ps qs tok)) (Resolved d)), d, vs, w3.
      repeat split; auto.
    + simpl. intros H. exfalso.
      rewrite Forall_forall in H.
      apply (H (Ev (FilesList auth (driveParams ps qs tok)) Rejected)); [| reflexivity].
      apply In_listings; [| reflexivity]. apply in_or_app. right. now left.
  - simpl. rewrite app_nil_r. intros H. exfalso.
    destruct (Hrej eq_refl) as (e & He & Hl).
    rewrite Forall_forall in H. apply (H e); [| exact Hl].
    apply In_listings; [exact He |].
    rewrite Forall_forall in Hall. now apply Hall.
Qed.

End ListingShape.

Lemma summary_json_fields (f : file) (o : outcome value_range) :
  exists fields,
    file_summary_json (summarize f o) = JObj fields
    /\ assoc "id" fields = Some (JStr (f_id f))
    /\ assoc "name" fields = option_map JStr (f_name f)
    /\ assoc "owners" fields
       = Some (JArr (map JStr (filter_truthy (map displayName (or_nil (f_owners f))))))
    /\ assoc "modifiedTime" fields = option_map JStr (f_modifiedTime f)
    /\ assoc "preview" fields
       = Some (JArr (map JArr match o with
                              | Resolved r => or_nil (values r)
                              | Rejected => []
                              end)).
Proof.
  unfold file_summary_json, summarize, jobj, jstr, grid_json; simpl.
  eexists. split; [reflexivity |].
  destruct (f_name f), (f_modifiedTime f), o; simpl; repeat split; reflexivity.
Qed.



(** Page 2 of the two-page listing: one preliminary listing without a
    token, the final one with the token [t2] it answered, and the
    answer is the second page. *)
Example page_2_follows_the_token :
  map call_of
    (listings (trace Demo.remote
                 (handle Demo.is_uri Demo.env (Demo.sheets_page 2) Demo.logged_in) tt))
  = [ FilesList (getAuthedClients Demo.env (tokens Demo.logged_in) Demo.logged_in)
                (driveParams 12 "" None);
      FilesList (getAuthedClients Demo.env (tokens Demo.logged_in) Demo.logged_in)
                (driveParams 12 "" (Some "t2")) ]
  /\ Demo.ask 2 <> Demo.ask 1.
Proof.
  split; [reflexivity |]. intros H. vm_compute in H. discriminate H.
Qed.

(** C7: when no listing of the request rejects, [GET /api/sheets]
    answers 200 whatever becomes of the preview fetches: one fetch per
    listed file, one item per listed file, in order; the item of a file
    whose fetch rejected has the empty preview, and the item of every
    other file has the values of its own fetch; the other fields of an
    item are the file's. *)
Theorem preview_failures_are_isolated
    (is_uri : string -> bool) (env : environment)
    (W : Type) (remote : forall c : call, W -> reply c * W)
    (rq : sheets_query) (v : sheets_value) (s : session) (w : W) :
  tokens s <> None ->
  validate_sheets_query rq = inr v ->
  Forall (fun e => listed e <> Rejected)
         (listings (trace remote (handle is_uri env (GetApiSheets rq) s) w)) ->
  exists prelim final d vs js,
    let fs := or_nil (files d) in
    trace remote (handle is_uri env (GetApiSheets rq) s) w
    = prelim ++ final :: zip_with (fetch_event (getAuthedClients env (tokens s) s)) fs vs
    /\ Forall (fun e => logged is_files_list e = true) prelim
    /\ logged is_files_list final = true
    /\ listed final = Resolved d
    /\ List.length vs = List.length fs
    /\ fst (result remote (handle is_uri env (GetApiSheets rq) s) w)
       = {| status := 200;
            content := Json (JObj [ ("items", JArr js);
                                    ("total", JNum (Z.of_nat (List.length fs))) ]);
            clearCookie := None |}
    /\ List.length js = List.length fs
    /\ (forall i f o, nth_error fs i = Some f -> nth_error vs i = Some o ->
        exists fields,
          nth_error js i = Some (JObj fields)
          /\ assoc "id" fields = Some (JStr (f_id f))
          /\ assoc "name" fields = option_map JStr (f_name f)
          /\ assoc "owners" fields
             = Some (JArr (map JStr (filter_truthy (map displayName (or_nil (f_owners f))))))
          /\ assoc "modifiedTime" fields = option_map JStr (f_modifiedTime f)
          /\ assoc "preview" fields
             = Some (JArr (map JArr match o with
                                    | Resolved r => or_nil (values r)
                                    | Rejected => []
                                    end))).
Proof.
  intros Ht Hv. unfold trace, result. simpl. unfold get_api_sheets, ensureAuthed.
  destruct (tokens s) as [t |] eqn:Et; [| contradiction].
  rewrite Hv, run_bind. intros Hall.
  destruct (run_list_sheets_resolved remote (getAuthedClients env (Some t) s)
              (v_pageSize v) (query v) (page v) w)
    as (prelim & final & d & vs & w' & Hpre & Hfin & Hd & Hvs & E).
  - unfold trace.
    destruct (run remote (list_sheets (getAuthedClients env (Some t) s)
                            (v_pageSize v) (query v) (page v)) w)
      as [[out w1] tr]. simpl in *.
    destruct out; simpl in Hall; now rewrite app_nil_r in Hall.
  - rewrite E. simpl. rewrite app_nil_r.
    exists prelim, final, d, vs,
      (map file_summary_json (zip_with summarize (or_nil (files d)) vs)).
    cbv zeta. rewrite length_map, zip_with_length by exact Hvs.
    do 5 (split; [solve [auto] |]).
    split; [unfold res_json, sheets_body; now rewrite zip_with_length |].
    split; [reflexivity |].
    intros i f o Hf Ho.
    destruct (summary_json_fields f o) as (fields & Hj & Hrest).
    exists fields. split; [| exact Hrest].
    rewrite nth_error_map, (zip_with_nth summarize _ _ _ Hf Ho). simpl. now rewrite Hj.
Qed.

Lemma preview_failures_are_isolated_witness :
  exists prelim final d vs js,
    let fs := or_nil (files d) in
    trace Demo.remote (handle Demo.is_uri Demo.env (Demo.sheets_page 1) Demo.logged_in) tt
    = prelim ++ final
        :: zip_with (fetch_event (getAuthedClients Demo.env (tokens Demo.logged_in)
                                    Demo.logged_in)) fs vs
    /\ Forall (fun e => logged is_files_list e = true) prelim
    /\ logged is_files_list final = true
    /\ listed final = Resolved d
    /\ List.length vs = List.length fs
    /\ fst (result Demo.remote
              (handle Demo.is_uri Demo.env (Demo.sheets_page 1) Demo.logged_in) tt)
       = {| status := 200;
            content := Json (JObj [ ("items", JArr js);
                                    ("total", JNum (Z.of_nat (List.length fs))) ]);
            clearCookie := None |}
    /\ List.length js = List.length fs
    /\ (forall i f o, nth_error fs i = Some f -> nth_error vs i = Some o ->
        exists fields,
          nth_error js i = Some (JObj fields)
          /\ assoc "id" fields = Some (JStr (f_id f))
          /\ assoc "name" fields = option_map JStr (f_name f)
          /\ assoc "owners" fields
             = Some (JArr (map JStr (filter_truthy (map displayName (or_nil (f_owners f))))))
          /\ assoc "modifiedTime" fields = option_map JStr (f_modifiedTime f)
          /\ assoc "preview" fields
             = Some (JArr (map JArr match o with
                                    | Resolved r => or_nil (values r)
                                    | Rejected => []
                                    end))).
Proof.
  apply (@preview_failures_are_isolated Demo.is_uri Demo.env unit Demo.remote
           (Demo.page_query 1) {| page := 1; v_pageSize := 12; query := "" |}
           Demo.logged_in tt).
  - discriminate.
  - reflexivity.
  - repeat constructor. discriminate.
Defined.

(** One of three previews fails: three items, the second one with the
    empty preview. *)
Example one_of_three_previews_fails :
  Demo.ask 1
  = res_json 200
      (sheets_body
         [ summarize (Demo.mk_file "a") (Resolved (Demo.cells "a"));
           summarize (Demo.mk_file "b") Rejected;
           summarize (Demo.mk_file "c") (Resolved (Demo.cells "c")) ])
  /\ fs_preview (summarize (Demo.mk_file "b") Rejected) = [].
Proof. split; reflexivity. Qed.

(** C1: on a listing of two pages, page 3 is past the end of the token
    stream: the second preliminary listing has no next page token. The
    answer is then the first page, not the last available one. *)
Theorem exhausted_stream_returns_first_page :
  exhausts Demo.remote
    (getAuthedClients Demo.env (tokens Demo.logged_in) Demo.logged_in) 12 ""
    (Z.to_nat (3 - 1)) None tt (Some "t2") tt
  /\ Demo.ask 2
     = res_json 200 (sheets_body [summarize (Demo.mk_file "d") (Resolved (Demo.cells "d"))])
  /\ Demo.ask 3 = Demo.ask 1
  /\ Demo.ask 3 <> Demo.ask 2.
Proof.
  split.
  - simpl. exists Demo.first_page, tt. split; [reflexivity |]. simpl.
    exists Demo.last_page, tt. split; [reflexivity |]. simpl. split; reflexivity.
  - split; [reflexivity |]. split; [reflexivity |].
    intros H. vm_compute in H. discriminate H.
Qed.


(** ** Further properties of the handlers *)

(** Walks a handler down to its leaves. *)
Ltac handler_leaves :=
  repeat match goal with
    | |- leaves _ (Ret _) => constructor
    | |- leaves _ (Await _ _) => constructor; intros [? |]
    | |- leaves _ (bind (list_sheets _ _ _ _) _) =>
        apply leaves_bind with (Q := fun _ => True); [apply leaves_any | intros [? |] _]
    | |- leaves _ (match ?x with _ => _ end) => destruct x eqn:?
    end.

Ltac unfold_handlers :=
  unfold get_auth_login, get_auth_callback, get_client_config, get_root, get_auth_logout,
    get_api_me, get_api_sheets, post_sheets_refresh, get_sheets_tabs, ensureAuthed.

Lemma status_401_characterised
    (is_uri : string -> bool) (env : environment)
    (W : Type) (remote : forall c : call, W -> reply c * W)
    (r : request) (s : session) (w : W) :
  status (fst (result remote (handle is_uri env r s) w)) = 401%Z
  <-> authenticated_route r = true /\ tokens s = None.
Proof.
  split.
  - apply run_leaves with
      (P := fun out => status (fst out) = 401%Z
                       -> authenticated_route r = true /\ tokens s = None).
    destruct r; simpl; unfold_handlers; simpl; handler_leaves; simpl;
      try discriminate; auto.
    unfold post_client_config.
    destruct (validate_client_config is_uri env (body_or_empty body)); simpl; discriminate.
  - intros [Hr Ht]. unfold result.
    destruct r; try discriminate Hr; simpl; unfold_handlers; rewrite Ht; reflexivity.
Qed.

(** The answer 401 is the guard's alone: a request is answered 401
    exactly when its route is behind [ensureAuthed] and the session has
    no token set. *)
Theorem status_401_iff_guarded
    (is_uri : string -> bool) (env : environment)
    (W : Type) (remote : forall c : call, W -> reply c * W)
    (r : request) (s : session) (w : W) :
  status (fst (result remote (handle is_uri env r s) w)) = 401%Z
  <-> authenticated_route r = true /\ tokens s = None.
Proof. apply status_401_characterised. Qed.

(** [GET /auth/callback] without a [code], or with an empty one, is
    answered 400 [Missing code]; no token is requested and the session
    stays as it was. *)
Theorem callback_without_code
    (is_uri : string -> bool) (env : environment)
    (W : Type) (remote : forall c : call, W -> reply c * W)
    (code : option string) (s : session) (w : W) :
  truthy code = false ->
  run remote (handle is_uri env (GetAuthCallback code) s) w
  = ((res_send 400 "Missing code", s), w, []).
Proof.
  intros Hc. simpl. unfold get_auth_callback. rewrite Hc. reflexivity.
Qed.

Lemma callback_without_code_witness :
  run Demo.remote (handle Demo.is_uri Demo.env (GetAuthCallback (Some "")) Demo.anonymous) tt
  = ((res_send 400 "Missing code", Demo.anonymous), tt, []).
Proof.
  apply (@callback_without_code Demo.is_uri Demo.env unit Demo.remote (Some "")
           Demo.anonymous tt).
  reflexivity.
Defined.

(** A callback whose code the provider accepts makes one remote call,
    the exchange of that code by the session's OAuth client, stores the
    token bundle, keeps the client configuration and redirects to the
    post-login page; from then on no route answers 401. *)
Theorem callback_logs_in
    (is_uri : string -> bool) (env : environment)
    (W : Type) (remote : forall c : call, W -> reply c * W)
    (code : option string) (s : session) (w w1 : W) (t : token_bundle) :
  truthy code = true ->
  remote (GetToken (getOAuthClient env s) (to_String code)) w = (Resolved t, w1) ->
  let s' := {| tokens := Some t; clientConfig := clientConfig s |} in
  run remote (handle is_uri env (GetAuthCallback code) s) w
  = ((res_redirect (Url (post_login_redirect env)), s'), w1,
     [Ev (GetToken (getOAuthClient env s) (to_String code)) (Resolved t)])
  /\ forall (r : request) (w2 : W),
      status (fst (result remote (handle is_uri env r s') w2)) <> 401%Z.
Proof.
  intros Hc Hr s'. split.
  - simpl. unfold get_auth_callback. rewrite Hc. simpl. rewrite Hr. reflexivity.
  - intros r w2 H. apply status_401_characterised in H as [_ H]. discriminate H.
Qed.

Lemma callback_logs_in_witness :
  let s' := {| tokens := Some Demo.bundle; clientConfig := clientConfig Demo.anonymous |} in
  run Demo.remote (handle Demo.is_uri Demo.env (GetAuthCallback (Some "4/abc")) Demo.anonymous) tt
  = ((res_redirect (Url (post_login_redirect Demo.env)), s'), tt,
     [Ev (GetToken (getOAuthClient Demo.env Demo.anonymous) (to_String (Some "4/abc")))
         (Resolved Demo.bundle)])
  /\ forall (r : request) (w2 : unit),
      status (fst (result Demo.remote (handle Demo.is_uri Demo.env r s') w2)) <> 401%Z.
Proof.
  apply (@callback_logs_in Demo.is_uri Demo.env unit Demo.remote (Some "4/abc")
           Demo.anonymous tt tt Demo.bundle); reflexivity.
Defined.

(** A callback whose code the provider refuses is answered 500 with a
    fixed text, and the session, a token set stored earlier included,
    stays as it was. *)
Theorem callback_failure_keeps_session
    (is_uri : string -> bool) (env : environment)
    (W : Type) (remote : forall c : call, W -> reply c * W)
    (code : option string) (s : session) (w w1 : W) :
  truthy code = true ->
  remote (GetToken (getOAuthClient env s) (to_String code)) w = (Rejected, w1) ->
  run remote (handle is_uri env (GetAuthCallback code) s) w
  = ((res_send 500 "OAuth callback failed", s), w1,
     [Ev (GetToken (getOAuthClient env s) (to_String code)) Rejected]).
Proof.
  intros Hc Hr. simpl. unfold get_auth_callback. rewrite Hc. simpl. rewrite Hr. reflexivity.
Qed.

Lemma callback_failure_keeps_session_witness :
  run Demo.offline (handle Demo.is_uri Demo.env (GetAuthCallback (Some "bad")) Demo.logged_in) tt
  = ((res_send 500 "OAuth callback failed", Demo.logged_in), tt,
     [Ev (GetToken (getOAuthClient Demo.env Demo.logged_in) (to_String (Some "bad"))) Rejected]).
Proof.
  apply (@callback_failure_keeps_session Demo.is_uri Demo.env unit Demo.offline (Some "bad")
           Demo.logged_in tt tt); reflexivity.
Defined.

(** A 500 answer of the application carries one of five fixed bodies
    and nothing of what the remote or the body parser said: the four of
    the handlers' [catch] blocks and the one of the error middleware.
    The error middleware answers, with no remote call and the session
    untouched, the requests whose body [express.json()] refuses, a JSON
    body that is neither an object nor an array among them; such a
    request never reaches its route. *)
Theorem failures_are_generic
    (is_uri : string -> bool) (env : environment)
    (W : Type) (remote : forall c : call, W -> reply c * W)
    (i : incoming) (s : session) (w : W) :
  let resp := fst (result remote (app is_uri env i s) w) in
  (status resp = 500%Z ->
   In (content resp)
      [ Text "OAuth callback failed";
        Json (JObj [("error", JStr "Failed to fetch user info")]);
        Json (JObj [("error", JStr "Failed to list sheets")]);
        Json (JObj [("error", JStr "Failed to fetch inner sheets")]);
        Json (JObj [("error", JStr "Internal Server Error")]) ])
  /\ (i = Unparsable
      \/ (exists j, i = Routed (PostClientConfig (Some j)) /\ strict_json j = false) ->
      run remote (app is_uri env i s) w
      = (({| status := 500;
             content := Json (JObj [("error", JStr "Internal Server Error")]);
             clearCookie := None |}, s), w, [])).
Proof.
  cbv zeta. split.
  - apply run_leaves with
      (P := fun out => status (fst out) = 500%Z ->
                       In (content (fst out))
                          [ Text "OAuth callback failed";
                            Json (JObj [("error", JStr "Failed to fetch user info")]);
                            Json (JObj [("error", JStr "Failed to list sheets")]);
                            Json (JObj [("error", JStr "Failed to fetch inner sheets")]);
                            Json (JObj [("error", JStr "Internal Server Error")]) ]).
    destruct i as [r |]; [| constructor; simpl; auto 6].
    assert (Hpost : forall body,
               status (fst (post_client_config is_uri env body s)) = 500%Z -> False).
    { intros body. unfold post_client_config.
      destruct (validate_client_config is_uri env (body_or_empty body)); simpl; discriminate. }
    destruct r; simpl; unfold_handlers; simpl; handler_leaves; simpl;
      try discriminate; auto 7;
      try (intros H; now apply Hpost in H).
  - intros [-> | (j & -> & Hj)]; simpl; [reflexivity |]. now rewrite Hj.
Qed.

Lemma failures_are_generic_witness :
  run Demo.remote
    (app Demo.is_uri Demo.env (Routed (PostClientConfig (Some JNull))) Demo.configured) tt
  = (({| status := 500;
         content := Json (JObj [("error", JStr "Internal Server Error")]);
         clearCookie := None |}, Demo.configured), tt, []).
Proof.
  apply (@failures_are_generic Demo.is_uri Demo.env unit Demo.remote
           (Routed (PostClientConfig (Some JNull))) Demo.configured tt).
  right. exists JNull. split; reflexivity.
Defined.

(** Only the callback and the logout touch the token set, and only the
    client-config post and the logout touch the client configuration:
    every other request leaves them as they were, whatever the remote
    answers. *)
Theorem session_frame
    (is_uri : string -> bool) (env : environment)
    (W : Type) (remote : forall c : call, W -> reply c * W)
    (r : request) (s : session) (w : W) :
  let after r := snd (result remote (handle is_uri env r s) w) in
  (tokens (after r) = tokens s
   \/ (exists code, r = GetAuthCallback code) \/ r = GetAuthLogout)
  /\ (clientConfig (after r) = clientConfig s
      \/ (exists body, r = PostClientConfig body) \/ r = GetAuthLogout)
  /\ (forall body, tokens (after (PostClientConfig body)) = tokens s)
  /\ (forall code, clientConfig (after (GetAuthCallback code)) = clientConfig s).
Proof.
  cbv zeta.
  assert (Hpost : forall body,
             tokens (snd (post_client_config is_uri env body s)) = tokens s).
  { intros body. unfold post_client_config.
    destruct (validate_client_config is_uri env (body_or_empty body)); reflexivity. }
  split; [| split; [| split]].
  - apply run_leaves with
      (P := fun out => tokens (snd out) = tokens s
                       \/ (exists code, r = GetAuthCallback code) \/ r = GetAuthLogout).
    destruct r; simpl; unfold_handlers; simpl; handler_leaves; simpl;
      eauto; try (left; now symmetry).
  - apply run_leaves with
      (P := fun out => clientConfig (snd out) = clientConfig s
                       \/ (exists body, r = PostClientConfig body) \/ r = GetAuthLogout).
    destruct r; simpl; unfold_handlers; simpl; handler_leaves; simpl; eauto.
  - intros body. apply Hpost.
  - intros code.
    apply run_leaves with (P := fun out => clientConfig (snd out) = clientConfig s).
    simpl; unfold_handlers; simpl; handler_leaves; reflexivity.
Qed.

(** Posting a client configuration does not log the user out. *)
Example post_keeps_tokens :
  tokens Demo.configured = tokens Demo.logged_in.
Proof. reflexivity. Qed.

(** The logout redirects to the root clearing the session cookie, and
    leaves a session that is logged out and has no client configuration
    of its own: every guarded route answers 401, the client
    configuration reads as not configured, and the OAuth client is the
    environment's. *)
Theorem logout_resets
    (is_uri : string -> bool) (env : environment)
    (W : Type) (remote : forall c : call, W -> reply c * W)
    (s : session) (w : W) :
  exists s',
    run remote (handle is_uri env GetAuthLogout s) w
    = (({| status := 302; content := Redirect (Url "/"); clearCookie := Some "gsd.sid" |}, s'),
       w, [])
    /\ (forall r w', authenticated_route r = true ->
                     run remote (handle is_uri env r s') w' = ((unauthorized, s'), w', []))
    /\ fst (get_client_config s')
       = res_json 200 (JObj [("configured", JBool false); ("config", JNull)])
    /\ getOAuthClient env s'
       = {| clientId := GOOGLE_CLIENT_ID env;
            clientSecret := GOOGLE_CLIENT_SECRET env;
            redirectUri := GOOGLE_REDIRECT_URI env |}.
Proof.
  exists fresh_session. split; [reflexivity |]. split; [| split; reflexivity].
  intros r w' Hr. destruct r; try discriminate Hr; reflexivity.
Qed.

Lemma getOAuthClient_of_config (env : environment) (t : option token_bundle)
    (cid sec uri : string) :
  cid <> "" -> sec <> "" -> uri <> "" ->
  getOAuthClient env
    {| tokens := t;
       clientConfig := Some {| cfg_clientId := Some cid; cfg_clientSecret := Some sec;
                               cfg_redirectUri := Some uri |} |}
  = {| clientId := Some cid; clientSecret := Some sec; redirectUri := Some uri |}.
Proof.
  intros Hc Hs Hu. unfold getOAuthClient; simpl.
  destruct cid, sec, uri; try contradiction; reflexivity.
Qed.

Lemma strlen_nonempty (s : string) : (10 <= strlen s)%Z -> s <> "".
Proof. intros H ->. unfold strlen in H; simpl in H; lia. Qed.

(** After a valid post the login is made with the posted credentials:
    the authorization URL is built by a client whose identifier and
    secret are the posted ones and whose redirect URI is the one the
    post answered, none of them the environment's, with the fixed
    scopes, offline access and forced consent. *)
Theorem post_then_login_uses_posted
    (is_uri : string -> bool) (env : environment)
    (body : option json) (s : session) (v : client_config_value) :
  validate_client_config is_uri env (body_or_empty body) = inr v ->
  exists uri s',
    handle is_uri env (PostClientConfig body) s
    = Ret (res_json 200 (JObj [("ok", JBool true); ("redirectUri", JStr uri)]), s')
    /\ handle is_uri env GetAuthLogin s'
       = Ret (res_redirect
                (AuthUrl {| clientId := Some (v_clientId v);
                            clientSecret := Some (v_clientSecret v);
                            redirectUri := Some uri |}
                         "offline" "consent" OAUTH_SCOPES),
              s').
Proof.
  intros Hv.
  destruct (post_client_config_valid is_uri env body s Hv)
    as (uri & Hne & _ & Hid & Hsec & E).
  eexists uri, _. simpl. rewrite E. split; [reflexivity |].
  unfold get_auth_login.
  rewrite getOAuthClient_of_config by auto using strlen_nonempty. reflexivity.
Qed.

Lemma post_then_login_uses_posted_witness :
  exists uri s',
    handle Demo.is_uri Demo.env (PostClientConfig Demo.good_body) Demo.anonymous
    = Ret (res_json 200 (JObj [("ok", JBool true); ("redirectUri", JStr uri)]), s')
    /\ handle Demo.is_uri Demo.env GetAuthLogin s'
       = Ret (res_redirect
                (AuthUrl {| clientId := Some "my-client-id.apps";
                            clientSecret := Some "my-client-secret";
                            redirectUri := Some uri |}
                         "offline" "consent" OAUTH_SCOPES),
              s').
Proof.
  apply (@post_then_login_uses_posted Demo.is_uri Demo.env Demo.good_body Demo.anonymous
           {| v_clientId := "my-client-id.apps"; v_clientSecret := "my-client-secret";
              v_redirectUri := "" |}).
  reflexivity.
Defined.

(** In every session a browser can hold, the OAuth client is either the
    environment's in all three fields (no client configuration) or the
    stored configuration's in all three: the two are never mixed. *)
Theorem reachable_client_is_uniform
    (is_uri : string -> bool) (env : environment) (s : session) :
  reachable is_uri env s ->
  (clientConfig s = None
   /\ getOAuthClient env s
      = {| clientId := GOOGLE_CLIENT_ID env;
           clientSecret := GOOGLE_CLIENT_SECRET env;
           redirectUri := GOOGLE_REDIRECT_URI env |})
  \/ (exists c,
         clientConfig s = Some c
         /\ getOAuthClient env s
            = {| clientId := cfg_clientId c;
                 clientSecret := cfg_clientSecret c;
                 redirectUri := cfg_redirectUri c |}).
Proof.
  intros Hr.
  assert (Hok : session_ok s).
  { induction Hr as [| W remote r s w _ IH]; [exact I |].
    apply run_leaves with (P := fun out => session_ok (snd out)).
    now apply handle_leaves_ok. }
  destruct s as [t [c |]]; [right | left; split; reflexivity].
  exists c. split; [reflexivity |].
  destruct Hok as (cid & sec & uri & Hc & Hs & Hu & Hlc & Hls & Hne).
  destruct c as [a b u]; simpl in *; subst.
  apply getOAuthClient_of_config; auto using strlen_nonempty.
Qed.

Lemma reachable_client_is_uniform_witness :
  (clientConfig Demo.configured = None
   /\ getOAuthClient Demo.env Demo.configured
      = {| clientId := GOOGLE_CLIENT_ID Demo.env;
           clientSecret := GOOGLE_CLIENT_SECRET Demo.env;
           redirectUri := GOOGLE_REDIRECT_URI Demo.env |})
  \/ (exists c,
         clientConfig Demo.configured = Some c
         /\ getOAuthClient Demo.env Demo.configured
            = {| clientId := cfg_clientId c;
                 clientSecret := cfg_clientSecret c;
                 redirectUri := cfg_redirectUri c |}).
Proof.
  apply (@reachable_client_is_uniform Demo.is_uri Demo.env Demo.configured).
  apply (@reachable_step Demo.is_uri Demo.env unit Demo.remote
           (PostClientConfig Demo.good_body) Demo.logged_in tt).
  apply (@reachable_step Demo.is_uri Demo.env unit Demo.remote
           (GetAuthCallback (Some "4/abc")) fresh_session tt).
  apply reachable_fresh.
Defined.


(** *** Listing spreadsheets, continued *)





(** A page beyond the safe integers is refused like any other query the
    schema does not accept. *)
Example unsafe_page_is_rejected :
  run Demo.remote
    (handle Demo.is_uri Demo.env (Demo.sheets_page 9007199254740993) Demo.logged_in) tt
  = ((res_json 400 (JObj [("error", JStr (quoted "page" ++ " must be a safe number"))]),
      Demo.logged_in), tt, []).
Proof. reflexivity. Qed.

Section ListingCalls.
Context {W : Type} (remote : forall c : call, W -> reply c * W).
Variables (auth : authed_client) (ps : Z) (qs : string).




(** On a stream that runs dry the loop lists, then ends with a falsy
    token. *)
Lemma run_skip_pages_dry (n : nat) (tok last : option string) (w w_end : W) :
  exhausts remote auth ps qs n tok w last w_end ->
  exists tok' tr,
    run remote (skip_pages auth ps qs n tok) w = (Resolved tok', w_end, tr)
    /\ truthy tok' = false
    /\ tr <> []
    /\ Forall (fun e => logged is_files_list e = true) tr.
Proof.
  revert tok w; induction n as [| n IH]; intros tok w; simpl; [contradiction |].
  intros (d & w1 & Hr & H). rewrite Hr.
  destruct (truthy (nextPageToken d)) eqn:Ht; simpl.
  - destruct (IH _ _ H) as (tok' & tr & -> & Hf & _ & Hall).
    eexists _, _. split; [reflexivity |]. split; [exact Hf |].
    split; [discriminate | constructor; auto].
  - destruct H as [_ ->]. eexists _, _. split; [reflexivity |]. split; [exact Ht |].
    split; [discriminate | repeat constructor].
Qed.
(** On a stream that runs dry the loop follows the tokens up to the
    last page, lists it, and ends with the falsy token that listing
    answered. *)
Lemma run_skip_pages_dry_chain (n : nat) (tok last : option string) (w w_end : W) :
  exhausts remote auth ps qs n tok w last w_end ->
  exists chain d,
    run remote (skip_pages auth ps qs n tok) w
    = (Resolved (nextPageToken d), w_end,
       chain ++ [Ev (FilesList auth (driveParams ps qs last)) (Resolved d)])
    /\ token_chain auth ps qs tok chain last
    /\ truthy (nextPageToken d) = false.
Proof.
  revert tok w; induction n as [| n IH]; intros tok w; simpl; [contradiction |].
  intros (d & w1 & Hr & H). rewrite Hr.
  destruct (truthy (nextPageToken d)) eqn:Ht; simpl.
  - destruct (IH _ _ H) as (chain & d' & -> & Hch & Hf).
    exists (Ev (FilesList auth (driveParams ps qs tok)) (Resolved d) :: chain), d'.
    split; [reflexivity |]. split; [now constructor | exact Hf].
  - destruct H as [-> ->]. exists [], d.
    split; [reflexivity |]. split; [constructor | exact Ht].
Qed.
End ListingCalls.



(** When the token stream runs dry before the requested page, the
    preliminary listings follow the tokens up to the last page, whose
    token is [last], and list that page; the final listing is then
    asked with the falsy [nextPageToken] that listing of the last page
    answered, which is not [last] whenever [last] is a real token. Only
    preview fetches follow. *)
Theorem exhausted_stream_restarts
    (is_uri : string -> bool) (env : environment)
    (W : Type) (remote : forall c : call, W -> reply c * W)
    (rq : sheets_query) (v : sheets_value) (s : session) (w w_end : W)
    (last : option string) :
  tokens s <> None ->
  validate_sheets_query rq = inr v ->
  let auth := getAuthedClients env (tokens s) s in
  let listing tok := FilesList auth (driveParams (v_pageSize v) (query v) tok) in
  exhausts remote auth (v_pageSize v) (query v) (Z.to_nat (page v - 1)) None w last w_end ->
  exists chain d rest,
    token_chain auth (v_pageSize v) (query v) None chain last
    /\ truthy (nextPageToken d) = false
    /\ (truthy last = true -> nextPageToken d <> last)
    /\ Forall (fun e => logged is_values_get e = true) rest
    /\ trace remote (handle is_uri env (GetApiSheets rq) s) w
       = chain
           ++ Ev (listing last) (Resolved d)
           :: Ev (listing (nextPageToken d)) (fst (remote (listing (nextPageToken d)) w_end))
           :: rest.
Proof.
  intros Ht Hv auth listing Hex. unfold trace. simpl. unfold get_api_sheets, ensureAuthed.
  subst auth listing. destruct (tokens s) as [t |] eqn:Et; [| contradiction].
  rewrite Hv, run_bind. unfold list_sheets. rewrite run_bind.
  destruct (run_skip_pages_dry_chain _ _ _ _ _ _ _ _ _ Hex) as (chain & d & -> & Hch & Hf).
  exists chain, d. simpl.
  assert (Hne : truthy last = true -> nextPageToken d <> last)
    by (intros Hl E; rewrite E in Hf; congruence).
  destruct (remote (FilesList (getAuthedClients env (Some t) s)
                      (driveParams (v_pageSize v) (query v) (nextPageToken d))) w_end)
    as [[d' |] w2] eqn:Hr; simpl.
  - rewrite run_bind.
    destruct (run_previews remote (getAuthedClients env (Some t) s) (or_nil (files d')) w2)
      as (vs & w3 & Hvs & ->).
    exists (zip_with (fetch_event (getAuthedClients env (Some t) s)) (or_nil (files d')) vs).
    simpl. rewrite !app_nil_r, <- app_assoc. simpl. auto using fetch_events_logged.
  - exists []. simpl. rewrite !app_nil_r, <- app_assoc. simpl. auto.
Qed.

Lemma exhausted_stream_restarts_witness :
  let auth := getAuthedClients Demo.env (tokens Demo.logged_in) Demo.logged_in in
  let listing tok := FilesList auth (driveParams 12 "" tok) in
  exists chain d rest,
    token_chain auth 12 "" None chain (Some "t2")
    /\ truthy (nextPageToken d) = false
    /\ (truthy (Some "t2") = true -> nextPageToken d <> Some "t2")
    /\ Forall (fun e => logged is_values_get e = true) rest
    /\ trace Demo.remote (handle Demo.is_uri Demo.env (Demo.sheets_page 5) Demo.logged_in) tt
       = chain
           ++ Ev (listing (Some "t2")) (Resolved d)
           :: Ev (listing (nextPageToken d))
                 (fst (Demo.remote (listing (nextPageToken d)) tt))
           :: rest.
Proof.
  apply (@exhausted_stream_restarts Demo.is_uri Demo.env unit Demo.remote
           (Demo.page_query 5) {| page := 5; v_pageSize := 12; query := "" |}
           Demo.logged_in tt tt (Some "t2")).
  - discriminate.
  - reflexivity.
  - simpl. exists Demo.first_page, tt. split; [reflexivity |]. simpl.
    exists Demo.last_page, tt. split; [reflexivity |]. simpl. split; reflexivity.
Defined.

(** When a listing rejects, the answer is 500 [Failed to list sheets],
    the session stays as it was and no preview has been fetched: the
    log holds listing calls only. *)
Theorem listing_failure_fetches_nothing
    (is_uri : string -> bool) (env : environment)
    (W : Type) (remote : forall c : call, W -> reply c * W)
    (rq : sheets_query) (s : session) (w : W) :
  status (fst (result remote (handle is_uri env (GetApiSheets rq) s) w)) = 500%Z ->
  result remote (handle is_uri env (GetApiSheets rq) s) w
  = (res_json 500 (JObj [("error", JStr "Failed to list sheets")]), s)
  /\ Forall (fun e => logged is_files_list e = true)
            (trace remote (handle is_uri env (GetApiSheets rq) s) w).
Proof.
  unfold trace, result. simpl. unfold get_api_sheets, ensureAuthed.
  destruct (tokens s) as [t |] eqn:Et; [| simpl; discriminate].
  destruct (validate_sheets_query rq) as [e | v]; [simpl; discriminate |].
  rewrite run_bind.
  destruct (run_list_sheets remote (getAuthedClients env (Some t) s)
              (v_pageSize v) (query v) (page v) w)
    as (prelim & Hpre & _ & [(w' & ->) | [(final & w' & Hfin & _ & ->)
                                         | (final & d & vs & w' & _ & Hd & Hvs & ->)]]);
    simpl; try discriminate; intros _; rewrite app_nil_r.
  - split; [reflexivity | exact Hpre].
  - split; [reflexivity |]. apply Forall_app. split; [exact Hpre | now constructor].
Qed.

Lemma listing_failure_fetches_nothing_witness :
  result Demo.offline (handle Demo.is_uri Demo.env (Demo.sheets_page 2) Demo.logged_in) tt
  = (res_json 500 (JObj [("error", JStr "Failed to list sheets")]), Demo.logged_in)
  /\ Forall (fun e => logged is_files_list e = true)
            (trace Demo.offline (handle Demo.is_uri Demo.env (Demo.sheets_page 2) Demo.logged_in) tt).
Proof.
  apply (@listing_failure_fetches_nothing Demo.is_uri Demo.env unit Demo.offline
           (Demo.page_query 2) Demo.logged_in tt).
  reflexivity.
Defined.

Lemma filter_truthy_In (xs : list (option string)) (x : string) :
  In x (filter_truthy xs) <-> x <> "" /\ In (Some x) xs.
Proof.
  induction xs as [| [[| c r] |] xs IH]; simpl.
  - tauto.
  - rewrite IH. split; [intros [H1 H2]; auto |].
    intros [H1 [H2 | H2]]; [injection H2 as <-; contradiction | auto].
  - rewrite IH. split.
    + intros [<- | [H1 H2]]; [split; [discriminate | now left] | auto].
    + intros [H1 [[= <-] | H2]]; [now left | right; auto].
  - rewrite IH. split; [intros [H1 H2]; auto |].
    intros [H1 [H2 | H2]]; [discriminate | auto].
Qed.

(** The owners of an item are the display names of the file's owners
    that are defined and not empty; a file without [owners] has none. *)
Theorem owners_are_named (f : file) (v : outcome value_range) (x : string) :
  In x (fs_owners (summarize f v))
  <-> x <> "" /\ exists o, In o (or_nil (f_owners f)) /\ displayName o = Some x.
Proof.
  unfold summarize; simpl. rewrite filter_truthy_In, in_map_iff.
  split; intros [H1 (o & H2 & H3)]; split; eauto.
Qed.

(** *** The tabs of a spreadsheet, continued *)





(** *** Escaping *)

Lemma append_length (a b : string) :
  String.length (a ++ b) = (String.length a + String.length b)%nat.
Proof. induction a as [| c a IH]; simpl; auto. Qed.

Lemma append_inv_head (p a b : string) : (p ++ a = p ++ b)%string -> a = b.
Proof. induction p as [| c p IH]; simpl; [auto |]. intros [= H]. auto. Qed.

Lemma append_inv_tail (a b t : string) : (a ++ t = b ++ t)%string -> a = b.
Proof.
  revert b; induction a as [| c a IH]; intros [| d b]; simpl; intros H.
  - reflexivity.
  - apply (f_equal String.length) in H. simpl in H. rewrite append_length in H. lia.
  - apply (f_equal String.length) in H. simpl in H. rewrite append_length in H. lia.
  - injection H as -> H. f_equal. now apply IH.
Qed.

Lemma doubling_injective (s1 s2 : string) :
  replace_all quote "''" s1 = replace_all quote "''" s2 -> s1 = s2.
Proof.
  revert s2; induction s1 as [| a r1 IH]; intros [| b r2]; simpl.
  - reflexivity.
  - destruct (Ascii.eqb b quote); discriminate.
  - destruct (Ascii.eqb a quote); discriminate.
  - destruct (Ascii.eqb_spec a quote) as [-> | Ha], (Ascii.eqb_spec b quote) as [-> | Hb];
      simpl.
    + intros [= H]. f_equal. now apply IH.
    + intros [= <- _]. now elim Hb.
    + intros [= -> _]. now elim Ha.
    + intros [= -> H]. f_equal. now apply IH.
Qed.

Lemma escaped_head (s : string) (c : ascii) (t : string) :
  replace_all quote "\'" s = String c t -> c <> quote.
Proof.
  destruct s as [| a r]; simpl; [discriminate |].
  destruct (Ascii.eqb_spec a quote) as [-> | Ha]; simpl; intros [= <- _].
  - discriminate.
  - exact Ha.
Qed.

Lemma escaping_injective (s1 s2 : string) :
  replace_all quote "\'" s1 = replace_all quote "\'" s2 -> s1 = s2.
Proof.
  revert s2; induction s1 as [| a r1 IH]; intros [| b r2]; simpl.
  - reflexivity.
  - destruct (Ascii.eqb b quote); discriminate.
  - destruct (Ascii.eqb a quote); discriminate.
  - destruct (Ascii.eqb_spec a quote) as [-> | Ha], (Ascii.eqb_spec b quote) as [-> | Hb];
      simpl.
    + intros [= H]. f_equal. now apply IH.
    + intros [= _ H]. symmetry in H. apply escaped_head in H. now elim H.
    + intros [= _ H]. apply escaped_head in H. now elim H.
    + intros [= -> H]. f_equal. now apply IH.
Qed.

Lemma tab_range_injective (p1 p2 : sheet_properties) :
  tab_range p1 = tab_range p2 -> to_String (title p1) = to_String (title p2).
Proof.
  unfold tab_range. intros H.
  apply append_inv_head, append_inv_tail in H. now apply doubling_injective.
Qed.

(** Tabs with different titles get different ranges: the doubling of
    the single quotes loses nothing of the title. *)
Theorem distinct_titles_distinct_ranges (p1 p2 : sheet_properties) :
  to_String (title p1) <> to_String (title p2) -> tab_range p1 <> tab_range p2.
Proof. intros Hne H. apply Hne. now apply tab_range_injective. Qed.

Lemma distinct_titles_distinct_ranges_witness :
  tab_range {| sheetId := Some 1%Z; title := Some "it's" |}
  <> tab_range {| sheetId := Some 1%Z; title := Some "it''s" |}.
Proof.
  apply (@distinct_titles_distinct_ranges
           {| sheetId := Some 1%Z; title := Some "it's" |}
           {| sheetId := Some 1%Z; title := Some "it''s" |}).
  discriminate.
Defined.

Lemma name_filter_injective (ps1 ps2 : Z) (tok1 tok2 : option string) (q1 q2 : string) :
  q (driveParams ps1 q1 tok1) = q (driveParams ps2 q2 tok2) -> q1 = q2.
Proof.
  unfold driveParams; cbn [q]. intros H. apply append_inv_head in H.
  destruct q1 as [| a r1], q2 as [| b r2]; cbn [truthy] in H.
  - reflexivity.
  - discriminate H.
  - discriminate H.
  - apply append_inv_head, append_inv_tail in H. now apply escaping_injective.
Qed.

(** Different queries give different filters, whatever the page size
    and the page token: the backslash put before every single quote of
    the query loses nothing of it, and only the empty query gives the
    filter without a name clause. *)
Theorem distinct_queries_distinct_filters
    (ps1 ps2 : Z) (tok1 tok2 : option string) (q1 q2 : string) :
  q1 <> q2 ->
  q (driveParams ps1 q1 tok1) <> q (driveParams ps2 q2 tok2)
  /\ (q (driveParams ps1 q1 tok1)
      = "mimeType='application/vnd.google-apps.spreadsheet' and trashed=false"
      <-> q1 = "").
Proof.
  intros Hne. split.
  - intros H. apply Hne. now apply (@name_filter_injective ps1 ps2 tok1 tok2).
  - split.
    + intros H. apply (@name_filter_injective ps1 ps1 tok1 tok1 q1 ""). exact H.
    + intros ->. reflexivity.
Qed.

Lemma distinct_queries_distinct_filters_witness :
  q (driveParams 12 "o'neil" None) <> q (driveParams 12 "o\'neil" None)
  /\ (q (driveParams 12 "o'neil" None)
      = "mimeType='application/vnd.google-apps.spreadsheet' and trashed=false"
      <-> "o'neil" = "").
Proof.
  apply (@distinct_queries_distinct_filters 12 12 None None "o'neil" "o\'neil").
  discriminate.
Defined.

(** *** The client configuration post, continued *)

(** The post reads the three fields of its schema and nothing else:
    bodies that agree on [clientId], [clientSecret] and [redirectUri]
    get the same answer and leave the same session, whatever other
    fields they hold. *)
Theorem post_ignores_unknown_fields
    (is_uri : string -> bool) (env : environment)
    (fs fs' : list (string * json)) (s : session) :
  assoc "clientId" fs = assoc "clientId" fs' ->
  assoc "clientSecret" fs = assoc "clientSecret" fs' ->
  assoc "redirectUri" fs = assoc "redirectUri" fs' ->
  handle is_uri env (PostClientConfig (Some (JObj fs))) s
  = handle is_uri env (PostClientConfig (Some (JObj fs'))) s.
Proof.
  intros H1 H2 H3. simpl. unfold post_client_config. simpl body_or_empty.
  unfold validate_client_config. now rewrite H1, H2, H3.
Qed.

Lemma post_ignores_unknown_fields_witness :
  handle Demo.is_uri Demo.env
    (PostClientConfig
       (Some (JObj [ ("admin", JBool true);
                     ("clientId", JStr "my-client-id.apps");
                     ("clientSecret", JStr "my-client-secret");
                     ("redirectUri", JStr "") ])))
    Demo.logged_in
  = handle Demo.is_uri Demo.env (PostClientConfig Demo.good_body) Demo.logged_in.
Proof.
  apply (@post_ignores_unknown_fields Demo.is_uri Demo.env
           [ ("admin", JBool true);
             ("clientId", JStr "my-client-id.apps");
             ("clientSecret", JStr "my-client-secret");
             ("redirectUri", JStr "") ]
           [ ("clientId", JStr "my-client-id.apps");
             ("clientSecret", JStr "my-client-secret");
             ("redirectUri", JStr "") ]
           Demo.logged_in); reflexivity.
Defined.

Lemma string_min_required_long (label : string) (s : string) :
  (10 <= strlen s)%Z -> string_min_required label 10 (Some (JStr s)) = inr s.
Proof.
  intros H. unfold string_min_required. destruct s as [| a r].
  - unfold strlen in H; simpl in H; lia.
  - destruct (Z.ltb_spec (strlen (String a r)) 10); [lia | reflexivity].
Qed.

(** A post with a valid identifier and secret and no [redirectUri], or
    an empty one, stores and answers the fallback: the environment's
    [GOOGLE_REDIRECT_URI] when that is set and not empty, the local
    callback URL otherwise. *)
Theorem post_without_redirect_uses_fallback
    (is_uri : string -> bool) (env : environment)
    (fs : list (string * json)) (cid sec : string) (s : session) :
  assoc "clientId" fs = Some (JStr cid) -> (10 <= strlen cid)%Z ->
  assoc "clientSecret" fs = Some (JStr sec) -> (10 <= strlen sec)%Z ->
  assoc "redirectUri" fs = None \/ assoc "redirectUri" fs = Some (JStr "") ->
  let uri := match GOOGLE_REDIRECT_URI env with
             | Some (String a r) => String a r
             | _ => "http://localhost:4000/auth/callback"
             end in
  handle is_uri env (PostClientConfig (Some (JObj fs))) s
  = Ret (res_json 200 (JObj [("ok", JBool true); ("redirectUri", JStr uri)]),
         {| tokens := tokens s;
            clientConfig := Some {| cfg_clientId := Some cid;
                                    cfg_clientSecret := Some sec;
                                    cfg_redirectUri := Some uri |} |}).
Proof.
  intros Hc Hlc Hs Hls Hu. cbv zeta. simpl. unfold post_client_config. simpl body_or_empty.
  unfold validate_client_config.
  rewrite Hc, Hs, !string_min_required_long by assumption.
  unfold optional_uri, default_redirect, js_or_lit.
  destruct Hu as [-> | ->].
  - destruct (GOOGLE_REDIRECT_URI env) as [[| a r] |]; reflexivity.
  - reflexivity.
Qed.

Lemma post_without_redirect_uses_fallback_witness :
  handle Demo.is_uri
    {| GOOGLE_CLIENT_ID := None; GOOGLE_CLIENT_SECRET := None;
       GOOGLE_REDIRECT_URI := Some ""; POST_LOGIN_REDIRECT := None |}
    (PostClientConfig
       (Some (JObj [ ("clientId", JStr "my-client-id.apps");
                     ("clientSecret", JStr "my-client-secret") ])))
    Demo.anonymous
  = Ret (res_json 200
           (JObj [("ok", JBool true);
                  ("redirectUri", JStr "http://localhost:4000/auth/callback")]),
         {| tokens := None;
            clientConfig :=
              Some {| cfg_clientId := Some "my-client-id.apps";
                      cfg_clientSecret := Some "my-client-secret";
                      cfg_redirectUri := Some "http://localhost:4000/auth/callback" |} |}).
Proof.
  apply (@post_without_redirect_uses_fallback Demo.is_uri
           {| GOOGLE_CLIENT_ID := None; GOOGLE_CLIENT_SECRET := None;
              GOOGLE_REDIRECT_URI := Some ""; POST_LOGIN_REDIRECT := None |}
           [ ("clientId", JStr "my-client-id.apps");
             ("clientSecret", JStr "my-client-secret") ]
           "my-client-id.apps" "my-client-secret" Demo.anonymous).
  - reflexivity.
  - discriminate.
  - reflexivity.
  - discriminate.
  - left; reflexivity.
Defined.

(** A post with a valid identifier and secret and a non-empty
    [redirectUri] stores and answers that very URI when it is one, and
    is answered 400 leaving the session as it was when it is not. *)
Theorem post_with_redirect
    (is_uri : string -> bool) (env : environment)
    (fs : list (string * json)) (cid sec uri : string) (s : session) :
  assoc "clientId" fs = Some (JStr cid) -> (10 <= strlen cid)%Z ->
  assoc "clientSecret" fs = Some (JStr sec) -> (10 <= strlen sec)%Z ->
  assoc "redirectUri" fs = Some (JStr uri) -> uri <> "" ->
  handle is_uri env (PostClientConfig (Some (JObj fs))) s
  = if is_uri uri
    then Ret (res_json 200 (JObj [("ok", JBool true); ("redirectUri", JStr uri)]),
              {| tokens := tokens s;
                 clientConfig := Some {| cfg_clientId := Some cid;
                                         cfg_clientSecret := Some sec;
                                         cfg_redirectUri := Some uri |} |})
    else Ret (res_json 400
                (JObj [("error", JStr (message (StringUri "redirectUri")))]), s).
Proof.
  intros Hc Hlc Hs Hls Hu Hne. simpl. unfold post_client_config. simpl body_or_empty.
  unfold validate_client_config.
  rewrite Hc, Hs, Hu, !string_min_required_long by assumption.
  unfold optional_uri. destruct uri as [| a r]; [contradiction |].
  destruct (is_uri (String a r)); [| reflexivity].
  cbn [v_redirectUri truthy andb].
  replace (0 <? strlen (String a r))%Z with true
    by (symmetry; apply Z.ltb_lt; unfold strlen; simpl String.length; lia).
  reflexivity.
Qed.

Lemma post_with_redirect_witness :
  handle Demo.is_uri Demo.env
    (PostClientConfig
       (Some (JObj [ ("clientId", JStr "my-client-id.apps");
                     ("clientSecret", JStr "my-client-secret");
                     ("redirectUri", JStr "not a uri") ])))
    Demo.logged_in
  = if Demo.is_uri "not a uri"
    then Ret (res_json 200 (JObj [("ok", JBool true); ("redirectUri", JStr "not a uri")]),
              {| tokens := tokens Demo.logged_in;
                 clientConfig := Some {| cfg_clientId := Some "my-client-id.apps";
                                         cfg_clientSecret := Some "my-client-secret";
                                         cfg_redirectUri := Some "not a uri" |} |})
    else Ret (res_json 400
                (JObj [("error", JStr (message (StringUri "redirectUri")))]),
              Demo.logged_in).
Proof.
  apply (@post_with_redirect Demo.is_uri Demo.env
           [ ("clientId", JStr "my-client-id.apps");
             ("clientSecret", JStr "my-client-secret");
             ("redirectUri", JStr "not a uri") ]
           "my-client-id.apps" "my-client-secret" "not a uri" Demo.logged_in).
  - reflexivity.
  - discriminate.
  - reflexivity.
  - discriminate.
  - reflexivity.
  - discriminate.
Defined.

(** A post without a body, or whose body has no [clientId], is answered
    400 saying that [clientId] is required, and the session stays as it
    was. *)
Theorem post_without_client_id
    (is_uri : string -> bool) (env : environment)
    (body : option json) (s : session) :
  body = None \/ (exists fs, body = Some (JObj fs) /\ assoc "clientId" fs = None) ->
  handle is_uri env (PostClientConfig body) s
  = Ret (res_json 400 (JObj [("error", JStr (quoted "clientId" ++ " is required"))]), s).
Proof.
  intros [-> | (fs & -> & Hc)]; simpl; unfold post_client_config; simpl body_or_empty;
    unfold validate_client_config.
  - reflexivity.
  - rewrite Hc. reflexivity.
Qed.

Lemma post_without_client_id_witness :
  handle Demo.is_uri Demo.env (PostClientConfig None) Demo.configured
  = Ret (res_json 400 (JObj [("error", JStr (quoted "clientId" ++ " is required"))]),
         Demo.configured).
Proof.
  apply (@post_without_client_id Demo.is_uri Demo.env None Demo.configured).
  left; reflexivity.
Defined.
